(** * KrishiMitra backend: the cache-aside weather and soil routes and the
      crop recommendation table of [backend/server.py].

    Python values are embedded as a small universe [value]; exceptions are
    the [Raise] branch of [result]; the document store, the clock and the
    list of provider requests form the [world] the route handlers thread
    through a state-and-exception monad. *)

From Stdlib Require Import ZArith List String Bool Lia Permutation Sorting.Sorted.
From Stdlib Require Import Floats.PrimFloat Floats.SpecFloat Floats.FloatOps.
From Stdlib Require Import Ascii.
Import ListNotations.

Set Warnings "-inexact-float,-register-all".
Local Open Scope string_scope.
Local Open Scope Z_scope.
Local Open Scope list_scope.

(** ** Python values *)

(** The values that flow through the handlers: what [response.json()]
    yields, plus the [datetime] and [ObjectId] values found in stored
    documents.  A [dict] is an association list read by first match. *)
Inductive value : Type :=
| VNone
| VBool (b : bool)
| VInt (z : Z)
| VFloat (f : float)
| VStr (s : string)
| VList (l : list value)
| VDict (d : list (string * value))
| VDatetime (t : Z)          (* microseconds since the epoch *)
| VObjectId (n : N).

Definition Dict : Type := list (string * value).

(** Exceptions; every one of them is a subclass of [Exception]. *)
Inductive exn : Type :=
| IndexError
| KeyError
| TypeError
| AttributeError
| OverflowError
| ValidationError
| HTTPException (status_code : Z) (detail : string).

Inductive result (A : Type) : Type :=
| Ok (a : A)
| Raise (e : exn).
Arguments Ok {A} a.
Arguments Raise {A} e.

Definition rbind {A B} (r : result A) (k : A -> result B) : result B :=
  match r with
  | Ok a => k a
  | Raise e => Raise e
  end.

Declare Scope result_scope.
Delimit Scope result_scope with result.
Notation "'let?' x ':=' r 'in' k" := (rbind r (fun x => k))
  (at level 10, x name, r at level 100, k at level 200) : result_scope.
Notation "'let?' ' p ':=' r 'in' k" := (rbind r (fun x => let 'p := x in k))
  (at level 10, p strict pattern, r at level 100, k at level 200) : result_scope.

(** [bool(v)] *)
Definition truthy (v : value) : bool :=
  match v with
  | VNone => false
  | VBool b => b
  | VInt z => negb (z =? 0)
  | VFloat f => negb (PrimFloat.eqb f 0%float)
  | VStr s => negb (s =? "")%string
  | VList l => match l with [] => false | _ => true end
  | VDict d => match d with [] => false | _ => true end
  | VDatetime _ => true
  | VObjectId _ => true
  end.

(** [k in d], [d[k]] and [d.get(k, default)] on a dict. *)
Fixpoint dict_lookup (d : Dict) (k : string) : option value :=
  match d with
  | [] => None
  | (k', v) :: d' => if (k' =? k)%string then Some v else dict_lookup d' k
  end.

Definition dict_contains (d : Dict) (k : string) : bool :=
  match dict_lookup d k with Some _ => true | None => false end.

Definition dict_getitem (d : Dict) (k : string) : result value :=
  match dict_lookup d k with Some v => Ok v | None => Raise KeyError end.

Definition dict_get (d : Dict) (k : string) (default : value) : value :=
  match dict_lookup d k with Some v => v | None => default end.

(** [v.get(k, default)]: only a dict has the method. *)
Definition py_get (v : value) (k : string) (default : value) : result value :=
  match v with
  | VDict d => Ok (dict_get d k default)
  | _ => Raise AttributeError
  end.

(** [v[0]] *)
Definition py_index0 (v : value) : result value :=
  match v with
  | VList (x :: _) => Ok x
  | VList [] => Raise IndexError
  | VStr (String c _) => Ok (VStr (String c ""))
  | VStr "" => Raise IndexError
  | VDict _ => Raise KeyError       (* the keys of a parsed JSON object are strings *)
  | _ => Raise TypeError
  end.

Fixpoint string_firstn (n : nat) (s : string) : string :=
  match n, s with
  | S n', String c s' => String c (string_firstn n' s')
  | _, _ => ""
  end.

(** [v[:n]] *)
Definition py_slice_to (n : nat) (v : value) : result value :=
  match v with
  | VList l => Ok (VList (firstn n l))
  | VStr s => Ok (VStr (string_firstn n s))
  | _ => Raise TypeError
  end.

(** ** Numbers *)

(** [int], [bool] (an [int] subclass) and [float] are the numeric values. *)
Inductive number : Type :=
| NInt (z : Z)
| NFloat (f : float).

Definition as_number (v : value) : option number :=
  match v with
  | VBool b => Some (NInt (if b then 1 else 0))
  | VInt z => Some (NInt z)
  | VFloat f => Some (NFloat f)
  | _ => None
  end.

(** An [int] is compared with a [float] by exact value; [None] stands for
    the unordered case (the float is a NaN). *)
Definition Z_vs_float (z : Z) (f : float) : option comparison :=
  match Prim2SF f with
  | S754_nan => None
  | S754_zero _ => Some (z ?= 0)
  | S754_infinity s => Some (if s then Gt else Lt)
  | S754_finite s m e =>
      let sm := if s then Z.neg m else Z.pos m in
      Some (if 0 <=? e then z ?= sm * 2 ^ e else z * 2 ^ (- e) ?= sm)
  end.

Definition compare_numbers (a b : number) : option comparison :=
  match a, b with
  | NInt x, NInt y => Some (x ?= y)
  | NInt x, NFloat g => Z_vs_float x g
  | NFloat f, NInt y => option_map CompOpp (Z_vs_float y f)
  | NFloat f, NFloat g =>
      match PrimFloat.compare f g with
      | FEq => Some Eq
      | FLt => Some Lt
      | FGt => Some Gt
      | FNotComparable => None
      end
  end.

(** [a <= b] and [a > b], used here with a numeric constant on one side:
    any other operand raises [TypeError]. *)
Definition py_le (a b : value) : result bool :=
  match as_number a, as_number b with
  | Some x, Some y =>
      Ok (match compare_numbers x y with Some Lt | Some Eq => true | _ => false end)
  | _, _ => Raise TypeError
  end.

Definition py_gt (a b : value) : result bool :=
  match as_number a, as_number b with
  | Some x, Some y =>
      Ok (match compare_numbers x y with Some Gt => true | _ => false end)
  | _, _ => Raise TypeError
  end.

(** [a and b] with [b] evaluated only when [a] holds. *)
Definition py_and (a : bool) (b : result bool) : result bool :=
  if a then b else Ok false.

(** [float(z)], rounded to nearest even; too large an [int] overflows. *)
Definition float_of_Z (z : Z) : result float :=
  match binary_normalize prec emax z 0 false with
  | S754_infinity _ => Raise OverflowError
  | sf => Ok (SF2Prim sf)
  end.

(** [v - c] for a float constant [c]. *)
Definition py_sub_float (v : value) (c : float) : result float :=
  match as_number v with
  | Some (NFloat f) => Ok (f - c)%float
  | Some (NInt z) => (let? f := float_of_Z z in Ok (f - c)%float)%result
  | None => Raise TypeError
  end.

(** ** Crop recommendations *)

Module Crop.
Record t : Type := {
  name : string;
  temp_range : Z * Z;
  moisture_req : string;
  ph_range : float * float;
  season : string;
  yield_per_acre : Z;
  price_per_kg : Z
}.
End Crop.

(** The static table of [generate_crop_recommendations]. *)
Definition crops_db : list Crop.t := [
  {| Crop.name := "Rice"; Crop.temp_range := (20, 35); Crop.moisture_req := "high";
     Crop.ph_range := (5.5, 7.0)%float; Crop.season := "Kharif";
     Crop.yield_per_acre := 25; Crop.price_per_kg := 25 |};
  {| Crop.name := "Wheat"; Crop.temp_range := (15, 25); Crop.moisture_req := "medium";
     Crop.ph_range := (6.0, 7.5)%float; Crop.season := "Rabi";
     Crop.yield_per_acre := 20; Crop.price_per_kg := 22 |};
  {| Crop.name := "Cotton"; Crop.temp_range := (21, 30); Crop.moisture_req := "medium";
     Crop.ph_range := (6.0, 8.0)%float; Crop.season := "Kharif";
     Crop.yield_per_acre := 15; Crop.price_per_kg := 45 |};
  {| Crop.name := "Sugarcane"; Crop.temp_range := (20, 30); Crop.moisture_req := "high";
     Crop.ph_range := (6.0, 7.5)%float; Crop.season := "Kharif";
     Crop.yield_per_acre := 400; Crop.price_per_kg := 3 |};
  {| Crop.name := "Maize"; Crop.temp_range := (18, 27); Crop.moisture_req := "medium";
     Crop.ph_range := (6.0, 7.0)%float; Crop.season := "Kharif/Rabi";
     Crop.yield_per_acre := 18; Crop.price_per_kg := 18 |}
].

(** The three messages a recommendation can carry.  [TemperatureIdeal t c]
    is the f-string "Temperature ({t}°C) is ideal for {c}"; the other two
    are the fixed moisture sentences. *)
Inductive reason : Type :=
| TemperatureIdeal (current_temp : value) (crop_name : string)
| HighMoisture        (* "High soil moisture suitable for water-loving crops" *)
| ModerateMoisture.   (* "Moderate soil moisture ideal for balanced growth" *)

Record CropRecommendation : Type := {
  crop_name : string;
  confidence_score : float;
  yield_forecast : Z;
  profit_estimate : Z;
  reasons : list reason;
  growing_season : string;
  water_requirement : string;
  soil_suitability : string
}.

(** [min(confidence, 1.0)]: the second argument wins only when it is
    strictly smaller. *)
Definition py_min (a b : float) : float :=
  if PrimFloat.ltb b a then b else a.

(** The temperature the scoring uses: 25 unless the weather has days. *)
Definition current_temp_of (weather_data : Dict) : result value :=
  if truthy (VDict weather_data) && dict_contains weather_data "days" then
    (let? days := dict_getitem weather_data "days" in
     let? day0 := py_index0 days in
     py_get day0 "temp" (VInt 25))%result
  else Ok (VInt 25).

(** The moisture the scoring uses: 0.2 unless the soil data has one. *)
Definition soil_moisture_of (soil_data : Dict) : value :=
  if truthy (VDict soil_data) then dict_get soil_data "moisture" (VFloat 0.2)
  else VFloat 0.2.

(** One turn of the loop over [crops_db]: the recommendation appended for
    [crop], if any. *)
Definition rate_crop (current_temp soil_moisture : value) (crop : Crop.t)
  : result (option CropRecommendation) :=
  (let confidence := 0.7%float in
   let reasons := [] in
   let '(temp_min, temp_max) := Crop.temp_range crop in
   let? lo := py_le (VInt temp_min) current_temp in
   let? in_range := py_and lo (py_le current_temp (VInt temp_max)) in
   let '(confidence, reasons) :=
     if in_range
     then ((confidence + 0.2)%float,
           reasons ++ [TemperatureIdeal current_temp (Crop.name crop)])
     else (confidence, reasons) in
   let? high := py_and (Crop.moisture_req crop =? "high")%string
                       (py_gt soil_moisture (VFloat 0.3)) in
   let? '(confidence, reasons) :=
     if high
     then Ok ((confidence + 0.1)%float, reasons ++ [HighMoisture])
     else
       let? medium :=
         py_and (Crop.moisture_req crop =? "medium")%string
                (let? lo := py_le (VFloat 0.15) soil_moisture in
                 py_and lo (py_le soil_moisture (VFloat 0.4))) in
       Ok (if medium
           then ((confidence + 0.1)%float, reasons ++ [ModerateMoisture])
           else (confidence, reasons)) in
   Ok (if PrimFloat.ltb 0.6 confidence
       then Some {| crop_name := Crop.name crop;
                    confidence_score := py_min confidence 1.0;
                    yield_forecast := Crop.yield_per_acre crop;
                    profit_estimate := Crop.yield_per_acre crop * Crop.price_per_kg crop;
                    reasons := reasons;
                    growing_season := Crop.season crop;
                    water_requirement := Crop.moisture_req crop;
                    soil_suitability := "Suitable" |}
       else None))%result.

(** The loop itself: the first exception ends it. *)
Fixpoint rate_crops (current_temp soil_moisture : value) (crops : list Crop.t)
  (recommendations : list CropRecommendation) : result (list CropRecommendation) :=
  match crops with
  | [] => Ok recommendations
  | crop :: rest =>
      (let? r := rate_crop current_temp soil_moisture crop in
       rate_crops current_temp soil_moisture rest
         (match r with Some rec => recommendations ++ [rec] | None => recommendations end))%result
  end.

(** [list.sort(key=confidence_score, reverse=True)]: a stable sort, so a
    recommendation stays ahead of the later ones of equal score. *)
Fixpoint insert_by_confidence (x : CropRecommendation) (l : list CropRecommendation)
  : list CropRecommendation :=
  match l with
  | [] => [x]
  | y :: l' =>
      if PrimFloat.ltb (confidence_score x) (confidence_score y)
      then y :: insert_by_confidence x l'
      else x :: l
  end.

Definition sort_by_confidence (l : list CropRecommendation) : list CropRecommendation :=
  fold_right insert_by_confidence [] l.

Definition generate_crop_recommendations (weather_data soil_data : Dict) (location : string)
  : result (list CropRecommendation) :=
  (let? current_temp := current_temp_of weather_data in
   let soil_moisture := soil_moisture_of soil_data in
   let? recommendations := rate_crops current_temp soil_moisture crops_db [] in
   Ok (firstn 5 (sort_by_confidence recommendations)))%result.

(** ** The world of the route handlers *)

(** What lies outside the repository: the wall clock, the two data
    providers and pydantic's field validators.  [utc_clock n] is what the
    [n]-th call of [datetime.utcnow()] returns; a provider answers the
    [n]-th request sent with a parsed JSON body, or [None] when the HTTP
    call, the status check or the JSON decoding raised. *)
Record environment : Type := {
  utc_clock : nat -> Z;
  visual_crossing : nat -> string -> option value;
  agromonitoring : nat -> string -> option value;
  validate_Dict : value -> option Dict;          (* Dict[str, Any] *)
  validate_List : value -> option (list value);  (* List[...] *)
  validate_float : value -> option float         (* float *)
}.

Inductive http_request : Type :=
| WeatherRequest (city : string)
| SoilRequest (polygon_id : string).

(** The state a handler reads and writes: the two cached collections of
    [db], the next [ObjectId] the store hands out, how often the clock
    was read, and the provider requests sent so far, newest first. *)
Record world : Type := {
  weather : list Dict;
  soil : list Dict;
  next_oid : N;
  clock_reads : nat;
  requests_sent : list http_request
}.

Inductive collection : Type :=
| db_weather
| db_soil.

Definition documents (c : collection) (w : world) : list Dict :=
  match c with
  | db_weather => weather w
  | db_soil => soil w
  end.

Definition store (c : collection) (docs : list Dict) (oid : N) (w : world) : world :=
  match c with
  | db_weather =>
      {| weather := docs; soil := soil w; next_oid := oid;
         clock_reads := clock_reads w; requests_sent := requests_sent w |}
  | db_soil =>
      {| weather := weather w; soil := docs; next_oid := oid;
         clock_reads := clock_reads w; requests_sent := requests_sent w |}
  end.

(** State and exceptions: a computation returns or raises, and hands on
    the world either way. *)
Definition M (A : Type) : Type := world -> result A * world.

Definition ret {A} (a : A) : M A := fun w => (Ok a, w).

Definition raise {A} (e : exn) : M A := fun w => (Raise e, w).

Definition bind {A B} (m : M A) (k : A -> M B) : M B :=
  fun w =>
    match m w with
    | (Ok a, w') => k a w'
    | (Raise e, w') => (Raise e, w')
    end.

(** [try: body except Exception as e: handler] *)
Definition try_except {A} (body : M A) (handler : exn -> M A) : M A :=
  fun w =>
    match body w with
    | (Ok a, w') => (Ok a, w')
    | (Raise e, w') => handler e w'
    end.

Definition lift {A} (r : result A) : M A := fun w => (r, w).

Declare Scope monad_scope.
Delimit Scope monad_scope with monad.
Notation "x <- m ;; k" := (bind m (fun x => k))
  (at level 61, m at next level, right associativity) : monad_scope.
Notation "m ;; k" := (bind m (fun _ => k))
  (at level 61, right associativity) : monad_scope.

(** *** The document store *)

(** The two filter clauses the handlers use: [{field: key}] and
    [{field: {"$gte": t}}]. *)
Definition field_is (field key : string) (doc : Dict) : bool :=
  match dict_lookup doc field with
  | Some (VStr s) => (s =? key)%string
  | _ => false
  end.

Definition field_gte (field : string) (t : Z) (doc : Dict) : bool :=
  match dict_lookup doc field with
  | Some (VDatetime u) => t <=? u
  | _ => false
  end.

(** A replacement keeps the [_id] of the document it replaces. *)
Definition keep_id (old replacement : Dict) : Dict :=
  match dict_lookup old "_id" with
  | Some oid => ("_id", oid) :: replacement
  | None => replacement
  end.

Fixpoint replace_first (flt : Dict -> bool) (replacement : Dict) (docs : list Dict)
  : option (list Dict) :=
  match docs with
  | [] => None
  | doc :: rest =>
      if flt doc then Some (keep_id doc replacement :: rest)
      else option_map (cons doc) (replace_first flt replacement rest)
  end.

(** [collection.find_one(filter)]: the first match, in store order. *)
Definition find_one (c : collection) (flt : Dict -> bool) : M (option Dict) :=
  fun w => (Ok (find flt (documents c w)), w).

(** [collection.replace_one(filter, replacement, upsert=True)]: the first
    match is replaced; with no match the replacement is inserted under a
    new [_id]. *)
Definition replace_one_upsert (c : collection) (flt : Dict -> bool) (replacement : Dict)
  : M unit :=
  fun w =>
    match replace_first flt replacement (documents c w) with
    | Some docs => (Ok tt, store c docs (next_oid w) w)
    | None =>
        (Ok tt,
         store c (documents c w ++ [("_id", VObjectId (next_oid w)) :: replacement])
               (N.succ (next_oid w)) w)
    end.

Definition timedelta_hours (hours : Z) : Z := hours * 3600 * 1000000.

Fixpoint traverse {A B} (f : A -> option B) (l : list A) : option (list B) :=
  match l with
  | [] => Some []
  | x :: l' =>
      match f x, traverse f l' with
      | Some y, Some ys => Some (y :: ys)
      | _, _ => None
      end
  end.

Section Handlers.

Variable E : environment.

(** [datetime.utcnow()] *)
Definition utcnow : M Z :=
  fun w =>
    (Ok (utc_clock E (clock_reads w)),
     {| weather := weather w; soil := soil w; next_oid := next_oid w;
        clock_reads := S (clock_reads w); requests_sent := requests_sent w |}).

Definition send (r : http_request) (reply : nat -> option value) : M (option value) :=
  fun w =>
    (Ok (reply (List.length (requests_sent w))),
     {| weather := weather w; soil := soil w; next_oid := next_oid w;
        clock_reads := clock_reads w; requests_sent := r :: requests_sent w |}).

(** [fetch_weather_data]: the parsed body, or [{}] on any exception. *)
Definition fetch_weather_data (city : string) : M value :=
  (reply <- send (WeatherRequest city) (fun n => visual_crossing E n city) ;;
   ret (match reply with Some body => body | None => VDict [] end))%monad.

(** [fetch_soil_data]: the parsed body, or [{}] on any exception. *)
Definition fetch_soil_data (polygon_id : string) : M value :=
  (reply <- send (SoilRequest polygon_id) (fun n => agromonitoring E n polygon_id) ;;
   ret (match reply with Some body => body | None => VDict [] end))%monad.

(** The fields of a validated [WeatherData], as [.dict()] lists them. *)
Definition WeatherData_fields (city : string) (current forecast : value) (now : Z)
  : result Dict :=
  match validate_Dict E current,
        match validate_List E forecast with
        | Some days => traverse (validate_Dict E) days
        | None => None
        end with
  | Some current', Some forecast' =>
      Ok [("city", VStr city); ("current", VDict current');
          ("forecast", VList (map VDict forecast')); ("updated_at", VDatetime now)]
  | _, _ => Raise ValidationError
  end.

(** [WeatherData(city=..., current=..., forecast=...).dict()];
    [updated_at] comes from its default factory. *)
Definition WeatherData (city : string) (current forecast : value) : M Dict :=
  (now <- utcnow ;;
   lift (WeatherData_fields city current forecast now))%monad.

(** The fields of a validated [SoilData]; [ph] takes its default. *)
Definition SoilData_fields (polygon_id : string) (temperature_surface temperature_10cm : float)
    (moisture : value) (now : Z) : result Dict :=
  match validate_float E moisture with
  | Some moisture' =>
      Ok [("polygon_id", VStr polygon_id);
          ("temperature_surface", VFloat temperature_surface);
          ("temperature_10cm", VFloat temperature_10cm);
          ("moisture", VFloat moisture');
          ("ph", VFloat 6.5);
          ("updated_at", VDatetime now)]
  | None => Raise ValidationError
  end.

Definition SoilData (polygon_id : string) (temperature_surface temperature_10cm : float)
    (moisture : value) : M Dict :=
  (now <- utcnow ;;
   lift (SoilData_fields polygon_id temperature_surface temperature_10cm moisture now))%monad.

(** [GET /weather/{city}] *)
Definition get_weather (city : string) : M Dict :=
  try_except
    (now <- utcnow ;;
     cached_weather <-
       find_one db_weather
         (fun doc => field_is "city" city doc
                     && field_gte "updated_at" (now - timedelta_hours 1) doc) ;;
     match cached_weather with
     | Some doc => ret doc
     | None =>
         weather_data <- fetch_weather_data city ;;
         if truthy weather_data then
           current <- lift (py_get weather_data "currentConditions" (VDict [])) ;;
           days <- lift (py_get weather_data "days" (VList [])) ;;
           forecast <- lift (py_slice_to 7 days) ;;
           weather_doc <- WeatherData city current forecast ;;
           replace_one_upsert db_weather (field_is "city" city) weather_doc ;;
           ret weather_doc
         else raise (HTTPException 404 "Weather data not found")
     end)%monad
    (fun e => raise (HTTPException 500 "Failed to fetch weather data")).

(** [GET /soil/{polygon_id}] *)
Definition get_soil_data (polygon_id : string) : M Dict :=
  try_except
    (now <- utcnow ;;
     cached_soil <-
       find_one db_soil
         (fun doc => field_is "polygon_id" polygon_id doc
                     && field_gte "updated_at" (now - timedelta_hours 6) doc) ;;
     match cached_soil with
     | Some doc => ret doc
     | None =>
         soil_data <- fetch_soil_data polygon_id ;;
         if truthy soil_data then
           t0 <- lift (py_get soil_data "t0" (VInt 300)) ;;
           temperature_surface <- lift (py_sub_float t0 273.15) ;;
           t10 <- lift (py_get soil_data "t10" (VInt 300)) ;;
           temperature_10cm <- lift (py_sub_float t10 273.15) ;;
           moisture <- lift (py_get soil_data "moisture" (VFloat 0.2)) ;;
           soil_doc <- SoilData polygon_id temperature_surface temperature_10cm moisture ;;
           replace_one_upsert db_soil (field_is "polygon_id" polygon_id) soil_doc ;;
           ret soil_doc
         else raise (HTTPException 404 "Soil data not found")
     end)%monad
    (fun e => raise (HTTPException 500 "Failed to fetch soil data")).

End Handlers.

(** ** Requests and the vocabulary of the cache policy *)

(** The two cached routes of [api_router]. *)
Inductive request : Type :=
| GET_weather (city : string)
| GET_soil (polygon_id : string).

Definition route (E : environment) (r : request) : M Dict :=
  match r with
  | GET_weather city => get_weather E city
  | GET_soil polygon_id => get_soil_data E polygon_id
  end.

(** Requests served one after the other; the world they leave behind. *)
Fixpoint serve (E : environment) (rs : list request) (w : world) : world :=
  match rs with
  | [] => w
  | r :: rs' => serve E rs' (snd (route E r w))
  end.

Definition collection_of (r : request) : collection :=
  match r with
  | GET_weather _ => db_weather
  | GET_soil _ => db_soil
  end.

Definition key_field (c : collection) : string :=
  match c with
  | db_weather => "city"
  | db_soil => "polygon_id"
  end.

Definition key_of (r : request) : string :=
  match r with
  | GET_weather city => city
  | GET_soil polygon_id => polygon_id
  end.

Definition ttl_of (r : request) : Z :=
  match r with
  | GET_weather _ => timedelta_hours 1
  | GET_soil _ => timedelta_hours 6
  end.

Definition fetch_of (r : request) : http_request :=
  match r with
  | GET_weather city => WeatherRequest city
  | GET_soil polygon_id => SoilRequest polygon_id
  end.

(** The stored records that carry the key of [r]. *)
Definition is_record_of (r : request) (doc : Dict) : bool :=
  field_is (key_field (collection_of r)) (key_of r) doc.

Definition records_for (r : request) (w : world) : list Dict :=
  filter (is_record_of r) (documents (collection_of r) w).

Definition updated_at_of (doc : Dict) : option Z :=
  match dict_lookup doc "updated_at" with
  | Some (VDatetime u) => Some u
  | _ => None
  end.

(** The record a keyed lookup finds, and its time stamp. *)
Definition stored_record (r : request) (w : world) : option Dict :=
  find (is_record_of r) (documents (collection_of r) w).

Definition stored_updated_at (r : request) (w : world) : option Z :=
  match stored_record r w with
  | Some doc => updated_at_of doc
  | None => None
  end.

(** The time the next clock reading shows, and the one after it. *)
Definition now (E : environment) (w : world) : Z := utc_clock E (clock_reads w).

Definition now_next (E : environment) (w : world) : Z := utc_clock E (S (clock_reads w)).

(** No stored record of the key is within the handler's freshness
    window at the time the handler reads. *)
Definition no_fresh_record (E : environment) (r : request) (w : world) : Prop :=
  forall doc u,
    In doc (records_for r w) -> updated_at_of doc = Some u -> ttl_of r < now E w - u.

(** What the fetcher hands to the handler on the next request. *)
Definition fetched (E : environment) (r : request) (w : world) : value :=
  match
    match r with
    | GET_weather city => visual_crossing E (List.length (requests_sent w)) city
    | GET_soil polygon_id => agromonitoring E (List.length (requests_sent w)) polygon_id
    end
  with
  | Some body => body
  | None => VDict []
  end.

(** The record a handler builds from a provider body at time [t]. *)
Definition weather_record (E : environment) (city : string) (body : value) (t : Z)
  : result Dict :=
  (let? current := py_get body "currentConditions" (VDict []) in
   let? days := py_get body "days" (VList []) in
   let? forecast := py_slice_to 7 days in
   WeatherData_fields E city current forecast t)%result.

Definition soil_record (E : environment) (polygon_id : string) (body : value) (t : Z)
  : result Dict :=
  (let? t0 := py_get body "t0" (VInt 300) in
   let? temperature_surface := py_sub_float t0 273.15 in
   let? t10 := py_get body "t10" (VInt 300) in
   let? temperature_10cm := py_sub_float t10 273.15 in
   let? moisture := py_get body "moisture" (VFloat 0.2) in
   SoilData_fields E polygon_id temperature_surface temperature_10cm moisture t)%result.

Definition record_of (E : environment) (r : request) (body : value) (t : Z) : result Dict :=
  match r with
  | GET_weather city => weather_record E city body t
  | GET_soil polygon_id => soil_record E polygon_id body t
  end.

(** The fetch succeeds with [doc]: the body is non-empty and the record
    built from it validates. *)
Definition fetch_succeeds (E : environment) (r : request) (w : world) (doc : Dict) : Prop :=
  truthy (fetched E r w) = true /\
  record_of E r (fetched E r w) (now_next E w) = Ok doc.

(** The fetch fails: a provider error or an undecodable body (both reach
    the handler as [{}]), an empty result, or a body no record can be
    built from. *)
Definition fetch_fails (E : environment) (r : request) (w : world) : Prop :=
  truthy (fetched E r w) = false \/
  exists e, record_of E r (fetched E r w) (now_next E w) = Raise e.

(** At most one record per key in a collection. *)
Definition one_per_key (field : string) (docs : list Dict) : Prop :=
  forall key, (List.length (filter (field_is field key) docs) <= 1)%nat.

Definition store_invariant (w : world) : Prop :=
  one_per_key "city" (weather w) /\ one_per_key "polygon_id" (soil w).

(** The store holds exactly what it held. *)
Definition same_store (w w' : world) : Prop :=
  weather w' = weather w /\ soil w' = soil w /\ next_oid w' = next_oid w.

(** The status the client sees. *)
Definition status_of (r : result Dict) : Z :=
  match r with
  | Ok _ => 200
  | Raise (HTTPException status_code _) => status_code
  | Raise _ => 500
  end.

(** *** Concrete surroundings for the examples *)

Definition strict_Dict (v : value) : option Dict :=
  match v with VDict d => Some d | _ => None end.

Definition strict_List (v : value) : option (list value) :=
  match v with VList l => Some l | _ => None end.

Definition strict_float (v : value) : option float :=
  match v with
  | VFloat f => Some f
  | VInt z => match float_of_Z z with Ok f => Some f | Raise _ => None end
  | _ => None
  end.

Definition minute : Z := 60 * 1000000.

Definition delhi_body : value :=
  VDict [("currentConditions", VDict [("temp", VInt 28); ("conditions", VStr "clear")]);
         ("days", VList [VDict [("temp", VInt 28)]])].

Definition soil_body : value :=
  VDict [("t0", VFloat 295.5); ("t10", VFloat 293.2); ("moisture", VFloat 0.25)].

(** Providers that answer, and a clock that shows ten more minutes at
    each reading. *)
Definition fair_weather : environment :=
  {| utc_clock := fun n => Z.of_nat n * (10 * minute);
     visual_crossing := fun _ _ => Some delhi_body;
     agromonitoring := fun _ _ => Some soil_body;
     validate_Dict := strict_Dict;
     validate_List := strict_List;
     validate_float := strict_float |}.

(** The same clock with both providers down. *)
Definition providers_down : environment :=
  {| utc_clock := fun n => Z.of_nat n * (10 * minute);
     visual_crossing := fun _ _ => None;
     agromonitoring := fun _ _ => None;
     validate_Dict := strict_Dict;
     validate_List := strict_List;
     validate_float := strict_float |}.

(** A clock that stands at [t]; the providers answer. *)
Definition at_time (t : Z) : environment :=
  {| utc_clock := fun _ => t;
     visual_crossing := fun _ _ => Some delhi_body;
     agromonitoring := fun _ _ => Some soil_body;
     validate_Dict := strict_Dict;
     validate_List := strict_List;
     validate_float := strict_float |}.

Definition empty_world : world :=
  {| weather := []; soil := []; next_oid := 0%N; clock_reads := 0; requests_sent := [] |}.

(** A weather record and a soil record written at time 0. *)
Definition mumbai_record : Dict :=
  [("_id", VObjectId 0); ("city", VStr "Mumbai"); ("current", VDict [("humidity", VInt 80)]);
   ("forecast", VList []); ("updated_at", VDatetime 0)].

Definition poly123_record : Dict :=
  [("_id", VObjectId 1); ("polygon_id", VStr "poly123"); ("temperature_surface", VFloat 20.0);
   ("temperature_10cm", VFloat 19.0); ("moisture", VFloat 0.3); ("ph", VFloat 6.5);
   ("updated_at", VDatetime 0)].

Definition stocked_world : world :=
  {| weather := [mumbai_record]; soil := [poly123_record]; next_oid := 2%N;
     clock_reads := 0; requests_sent := [] |}.

(** *** The three ways a request can go *)

(** The document the handler's lookup returns, if any: the first stored
    record of the key whose [updated_at] is at or after [now - ttl]. *)
Definition cache_hit (E : environment) (r : request) (w : world) : option Dict :=
  find (fun doc => is_record_of r doc && field_gte "updated_at" (now E w - ttl_of r) doc)
       (documents (collection_of r) w).

(** The world after [reads] more clock readings and the requests [sent]. *)
Definition advance (reads : nat) (sent : list http_request) (w : world) : world :=
  {| weather := weather w; soil := soil w; next_oid := next_oid w;
     clock_reads := reads + clock_reads w; requests_sent := sent ++ requests_sent w |}.

(** The world after a refresh of the record of [r] with [doc]. *)
Definition refreshed (r : request) (doc : Dict) (w : world) : world :=
  snd (replace_one_upsert (collection_of r) (is_record_of r) doc
         (advance 2 [fetch_of r] w)).

Definition failure_detail (r : request) : string :=
  match r with
  | GET_weather _ => "Failed to fetch weather data"
  | GET_soil _ => "Failed to fetch soil data"
  end.

(** ** Vocabulary of the theorems *)

(** The scores a crop can get: base, base plus temperature, base plus
    moisture, base plus both. *)
Definition score_values : list float :=
  [0.7; 0.7 + 0.2; 0.7 + 0.1; 0.7 + 0.2 + 0.1]%float.

Definition by_confidence_desc (a b : CropRecommendation) : Prop :=
  PrimFloat.leb (confidence_score b) (confidence_score a) = true.

Definition score_in_bounds (r : CropRecommendation) : Prop :=
  PrimFloat.ltb 0.6 (confidence_score r) = true /\
  PrimFloat.leb (confidence_score r) 1.0 = true.

Definition rated_as (crop : Crop.t) (r : CropRecommendation) : Prop :=
  crop_name r = Crop.name crop /\ In (confidence_score r) score_values.

Definition scored (l : list CropRecommendation) : Prop :=
  Forall (fun r => In (confidence_score r) score_values) l.



(** A provider reporting 25 degrees, and one reporting a moisture of 0.2. *)
Definition reported_25 : Dict := [("days", VList [VDict [("temp", VInt 25)]])].

Definition reported_02 : Dict := [("moisture", VFloat 0.2)].

(** The document taking the place of [doc] in the store: [doc] itself,
    or [doc] under an [_id]. *)
Definition stored_as (doc stored : Dict) : Prop :=
  stored = doc \/ exists oid, stored = ("_id", oid) :: doc.

(** The payload the example provider's body makes for [city] at time [t]. *)
Definition delhi_payload (city : string) (t : Z) : Dict :=
  [("city", VStr city);
   ("current", VDict [("temp", VInt 28); ("conditions", VStr "clear")]);
   ("forecast", VList [VDict [("temp", VInt 28)]]);
   ("updated_at", VDatetime t)].

(** The stocked store after seven clock readings: seventy minutes on the
    ten-minute clock. *)
Definition later_world : world := advance 7 [] stocked_world.

(** The place of a crop in [crops_db], by name. *)
Fixpoint position_of (name : string) (names : list string) : nat :=
  match names with
  | [] => 0
  | n :: rest => if (n =? name)%string then 0 else S (position_of name rest)
  end.

Definition table_index (r : CropRecommendation) : nat :=
  position_of (crop_name r) (map Crop.name crops_db).

(** [a] ranks before [b]: a higher score, or the same score and an
    earlier place in the table. *)
Definition ranks_before (a b : CropRecommendation) : Prop :=
  PrimFloat.ltb (confidence_score b) (confidence_score a) = true \/
  (confidence_score a = confidence_score b /\ (table_index a < table_index b)%nat).

(** ** The other routes *)

(** What else lies outside the repository: the polygon API, the
    generative model, [uuid.uuid4], [base64.b64decode], [json.loads]
    and pydantic's [str] validator.  A reply is [None] when the call
    raised; [generate_content n prompt image] stands for the whole body
    of the [try] in [get_gemini_response], the opening of the image
    included. *)
Record services : Type := {
  surroundings : environment;
  agro_polygons : nat -> string -> list (list (list float)) -> option value;
  uuid4 : nat -> string;
  generate_content : nat -> string -> option string -> option string;
  b64decode : string -> option string;
  json_loads : string -> option value;
  validate_str : value -> option string
}.

Inductive api_call : Type :=
| PolygonCall (name : string)
| GeminiCall (prompt : string) (image : option string).

Module PolygonCreate.
Record t : Type := {
  name : string;
  coordinates : list (list (list float));
  farmer_id : string
}.
End PolygonCreate.

Module ChatMessage.
Record t : Type := {
  message : string;
  language : option string
}.
End ChatMessage.

Module DiseaseDetection.
Record t : Type := {
  image_base64 : string;
  crop_type : option string
}.
End DiseaseDetection.

Module RecommendationDoc.
Record t : Type := {
  _id : N;
  city : string;
  polygon_id : option string;
  recommendations : list CropRecommendation;
  created_at : Z
}.
End RecommendationDoc.

(** The whole of [db], with the calls sent to the polygon API and to the
    generative model, newest first. *)
Record database : Type := {
  cache : world;
  polygons : list Dict;
  recommendations : list RecommendationDoc.t;
  market_prices : list Dict;
  disease_detections : list Dict;
  chat_history : list Dict;
  calls : list api_call
}.

Definition with_cache (w : world) (db : database) : database :=
  {| cache := w; polygons := polygons db; recommendations := recommendations db;
     market_prices := market_prices db; disease_detections := disease_detections db;
     chat_history := chat_history db; calls := calls db |}.

Definition App (A : Type) : Type := database -> result A * database.

Definition app_ret {A} (a : A) : App A := fun db => (Ok a, db).

Definition app_raise {A} (e : exn) : App A := fun db => (Raise e, db).

Definition app_bind {A B} (m : App A) (k : A -> App B) : App B :=
  fun db =>
    match m db with
    | (Ok a, db') => k a db'
    | (Raise e, db') => (Raise e, db')
    end.

Definition app_try {A} (body : App A) (handler : exn -> App A) : App A :=
  fun db =>
    match body db with
    | (Ok a, db') => (Ok a, db')
    | (Raise e, db') => handler e db'
    end.

Definition app_lift {A} (r : result A) : App A := fun db => (r, db).

(** A computation on the cached part of the world, run on the whole. *)
Definition in_cache {A} (m : M A) : App A :=
  fun db => let (r, w) := m (cache db) in (r, with_cache w db).

Declare Scope app_scope.
Delimit Scope app_scope with app.
Notation "x <- m ;; k" := (app_bind m (fun x => k))
  (at level 61, m at next level, right associativity) : app_scope.
Notation "m ;; k" := (app_bind m (fun _ => k))
  (at level 61, right associativity) : app_scope.

(** The [ObjectId] an insert hands out. *)
Definition new_oid : App N :=
  in_cache (fun w =>
    (Ok (next_oid w),
     {| weather := weather w; soil := soil w; next_oid := N.succ (next_oid w);
        clock_reads := clock_reads w; requests_sent := requests_sent w |})).

Definition call (c : api_call) : App nat :=
  fun db =>
    (Ok (List.length (calls db)),
     {| cache := cache db; polygons := polygons db; recommendations := recommendations db;
        market_prices := market_prices db; disease_detections := disease_detections db;
        chat_history := chat_history db; calls := c :: calls db |}).

(** [int] given for a [float] field: [float(z)]. *)
Definition int_to_float (z : Z) : float := SF2Prim (binary_normalize prec emax z 0 false).

(** *** Recommendations from provider bodies *)

(** [generate_crop_recommendations] as the route calls it, on whatever
    the two fetches returned. *)
Definition is_days (v : value) : bool :=
  match v with
  | VStr s => (s =? "days")%string
  | _ => false
  end.

Definition has_days (weather_data : value) : result bool :=
  match weather_data with
  | VDict d => Ok (dict_contains d "days")
  | VList l => Ok (existsb is_days l)
  | VStr s => Ok (match index 0 "days" s with Some _ => true | None => false end)
  | _ => Raise TypeError
  end.

Definition current_temp_from (weather_data : value) : result value :=
  if truthy weather_data then
    (let? present := has_days weather_data in
     if present then
       let? days := match weather_data with
                    | VDict d => dict_getitem d "days"
                    | _ => Raise TypeError
                    end in
       let? day0 := py_index0 days in
       py_get day0 "temp" (VInt 25)
     else Ok (VInt 25))%result
  else Ok (VInt 25).

Definition soil_moisture_from (soil_data : value) : result value :=
  if truthy soil_data then py_get soil_data "moisture" (VFloat 0.2)
  else Ok (VFloat 0.2).

Definition recommendations_from (weather_data soil_data : value) (location : string)
  : result (list CropRecommendation) :=
  (let? current_temp := current_temp_from weather_data in
   let? soil_moisture := soil_moisture_from soil_data in
   let? recommendations := rate_crops current_temp soil_moisture crops_db [] in
   Ok (firstn 5 (sort_by_confidence recommendations)))%result.

(** *** Prompts and the reading of the model's answer *)

Definition nl : string := String (ascii_of_nat 10) "".

(** The indentation the prompt templates carry in the source. *)
Definition indent : string := "        ".

(** [s or default] for an optional string. *)
Definition or_default (s : option string) (default : string) : string :=
  match s with
  | Some x => if truthy (VStr x) then x else default
  | None => default
  end.

Definition chat_prompt (chat_data : ChatMessage.t) : string :=
  nl ++ indent ++ "You are an expert agricultural advisor helping Indian farmers. "
  ++ nl ++ indent ++ "Respond to this question in "
  ++ or_default (ChatMessage.language chat_data) "English" ++ "."
  ++ nl ++ indent
  ++ nl ++ indent ++ "Question: " ++ ChatMessage.message chat_data
  ++ nl ++ indent
  ++ nl ++ indent
  ++ "Provide practical, actionable advice suitable for Indian farming conditions."
  ++ nl ++ indent ++ "Include specific suggestions and be encouraging."
  ++ nl ++ indent.

Definition disease_prompt (detection_data : DiseaseDetection.t) : string :=
  nl ++ indent ++ "Analyze this crop image for diseases, pests, or health issues. "
  ++ nl ++ indent ++ "Crop type: "
  ++ or_default (DiseaseDetection.crop_type detection_data) "Unknown"
  ++ nl ++ indent
  ++ nl ++ indent ++ "Please provide:"
  ++ nl ++ indent ++ "1. Disease name (if any)"
  ++ nl ++ indent ++ "2. Confidence level (0-100%)"
  ++ nl ++ indent ++ "3. Visible symptoms"
  ++ nl ++ indent ++ "4. Treatment recommendations"
  ++ nl ++ indent ++ "5. Severity level (Low/Medium/High)"
  ++ nl ++ indent ++ "6. Prevention tips"
  ++ nl ++ indent
  ++ nl ++ indent
  ++ "Format as JSON with keys: disease_name, confidence, symptoms, treatment, severity, prevention_tips"
  ++ nl ++ indent.

(** The text [get_gemini_response] returns when the model call raises. *)
Definition apology : string :=
  "I'm sorry, I'm having trouble processing your request right now.".

Definition suggestions : list string := [
  "Tell me about crop rotation";
  "What are the best fertilizers?";
  "How to improve soil health?";
  "Market price trends"
].

(** [re.search(r'\{.*\}', response, re.DOTALL)]: the text from the first
    opening brace to the last closing brace after it. *)
Fixpoint from_first_brace (s : string) : option string :=
  match s with
  | EmptyString => None
  | String c s' => if (c =? "{")%char then Some s else from_first_brace s'
  end.

Fixpoint to_last_brace (s : string) : option string :=
  match s with
  | EmptyString => None
  | String c s' =>
      match to_last_brace s' with
      | Some p => Some (String c p)
      | None => if (c =? "}")%char then Some (String c "") else None
      end
  end.

Definition brace_span (response : string) : option string :=
  match from_first_brace response with
  | Some t => to_last_brace t
  | None => None
  end.

(** The two results the handler falls back on. *)
Definition analysis_incomplete : Dict :=
  [("disease_name", VStr "Analysis incomplete"); ("confidence", VInt 50);
   ("symptoms", VList [VStr "Image analysis in progress"]);
   ("treatment", VList [VStr "Consult agricultural expert"]);
   ("severity", VStr "Medium");
   ("prevention_tips", VList [VStr "Regular monitoring recommended"])].

Definition healthy_plant : Dict :=
  [("disease_name", VStr "Healthy plant detected"); ("confidence", VInt 75);
   ("symptoms", VList [VStr "No visible disease symptoms"]);
   ("treatment", VList [VStr "Continue current care routine"]);
   ("severity", VStr "Low");
   ("prevention_tips", VList [VStr "Maintain good farming practices"])].

(** *** Market prices *)

Definition mock_crops : list (string * Z * string) := [
  ("Rice", 25, "stable");
  ("Wheat", 22, "rising");
  ("Cotton", 45, "falling");
  ("Sugarcane", 3, "stable");
  ("Maize", 18, "rising");
  ("Onion", 15, "rising");
  ("Potato", 12, "stable");
  ("Tomato", 20, "falling")
].

(** [MarketPrice(...).dict()] *)
Definition MarketPrice (crop_name : string) (price_per_kg : Z) (market_name price_trend : string)
    (updated_at : Z) : Dict :=
  [("crop_name", VStr crop_name); ("price_per_kg", VFloat (int_to_float price_per_kg));
   ("market_name", VStr market_name); ("price_trend", VStr price_trend);
   ("updated_at", VDatetime updated_at)].

Fixpoint app_map {A B} (f : A -> App B) (l : list A) : App (list B) :=
  match l with
  | [] => app_ret []
  | x :: rest => (y <- f x ;; ys <- app_map f rest ;; app_ret (y :: ys))%app
  end.

Section Routes.

Variable sv : services.

(** [generate_mock_market_prices]: each price reads the clock for its
    [updated_at]. *)
Definition generate_mock_market_prices : App (list Dict) :=
  app_map (fun crop =>
             let '(name, price, trend) := crop in
             (updated_at <- in_cache (utcnow (surroundings sv)) ;;
              app_ret (MarketPrice name price "Local Mandi" trend updated_at))%app)
          mock_crops.

(** [insert_many]: each document is stored under a new [_id]. *)
Definition with_new_id (doc : Dict) : App Dict :=
  (oid <- new_oid ;; app_ret (("_id", VObjectId oid) :: doc))%app.

(** [db.market_prices.delete_many({})] and [insert_many(docs)]. *)
Definition delete_market_prices : App unit :=
  fun db =>
    (Ok tt,
     {| cache := cache db; polygons := polygons db; recommendations := recommendations db;
        market_prices := []; disease_detections := disease_detections db;
        chat_history := chat_history db; calls := calls db |}).

Definition insert_market_prices (docs : list Dict) : App unit :=
  (stored <- app_map with_new_id docs ;;
   fun db =>
     (Ok tt,
      {| cache := cache db; polygons := polygons db; recommendations := recommendations db;
         market_prices := market_prices db ++ stored;
         disease_detections := disease_detections db;
         chat_history := chat_history db; calls := calls db |}))%app.

(** [GET /market-prices] *)
Definition get_market_prices : App (list Dict) :=
  app_try
    (prices <- generate_mock_market_prices ;;
     delete_market_prices ;;
     insert_market_prices prices ;;
     app_ret prices)%app
    (fun e => app_raise (HTTPException 500 "Failed to fetch market prices")).

(** [GET /recommendations/{city}] *)
Definition insert_recommendation (doc : RecommendationDoc.t) : App unit :=
  fun db =>
    (Ok tt,
     {| cache := cache db; polygons := polygons db;
        recommendations := recommendations db ++ [doc];
        market_prices := market_prices db; disease_detections := disease_detections db;
        chat_history := chat_history db; calls := calls db |}).

Definition get_crop_recommendations (city : string) (polygon_id : option string)
  : App (list CropRecommendation) :=
  app_try
    (weather_data <- in_cache (fetch_weather_data (surroundings sv) city) ;;
     soil_data <- match polygon_id with
                  | Some p => if truthy (VStr p) then in_cache (fetch_soil_data (surroundings sv) p)
                              else app_ret (VDict [])
                  | None => app_ret (VDict [])
                  end ;;
     recs <- app_lift (recommendations_from weather_data soil_data city) ;;
     created_at <- in_cache (utcnow (surroundings sv)) ;;
     oid <- new_oid ;;
     insert_recommendation
       {| RecommendationDoc._id := oid; RecommendationDoc.city := city;
          RecommendationDoc.polygon_id := polygon_id;
          RecommendationDoc.recommendations := recs;
          RecommendationDoc.created_at := created_at |} ;;
     app_ret recs)%app
    (fun e => app_raise (HTTPException 500 "Failed to generate recommendations")).

(** *** Polygons *)

(** [create_agro_polygon]: the parsed body, or [{}] on any exception. *)
Definition create_agro_polygon (name : string) (coordinates : list (list (list float)))
  : App value :=
  (n <- call (PolygonCall name) ;;
   app_ret (match agro_polygons sv n name coordinates with
            | Some body => body
            | None => VDict []
            end))%app.

Definition coordinates_value (coordinates : list (list (list float))) : value :=
  VList (map (fun ring => VList (map (fun point => VList (map VFloat point)) ring)) coordinates).

(** The fields of a validated [Polygon], as [.dict()] lists them. *)
Definition Polygon_fields (id : value) (name : string) (coordinates : list (list (list float)))
    (farmer_id : string) (area center : value) (created_at : Z) : result Dict :=
  match validate_str sv id,
        validate_float (surroundings sv) area,
        match validate_List (surroundings sv) center with
        | Some l => traverse (validate_float (surroundings sv)) l
        | None => None
        end with
  | Some id', Some area', Some center' =>
      Ok [("id", VStr id'); ("name", VStr name);
          ("coordinates", coordinates_value coordinates);
          ("farmer_id", VStr farmer_id); ("area", VFloat area');
          ("center", VList (map VFloat center')); ("created_at", VDatetime created_at)]
  | _, _, _ => Raise ValidationError
  end.

Definition insert_polygon (doc : Dict) : App unit :=
  (stored <- with_new_id doc ;;
   fun db =>
     (Ok tt,
      {| cache := cache db; polygons := polygons db ++ [stored];
         recommendations := recommendations db; market_prices := market_prices db;
         disease_detections := disease_detections db;
         chat_history := chat_history db; calls := calls db |}))%app.

(** [POST /polygons] *)
Definition create_polygon (polygon_data : PolygonCreate.t) : App Dict :=
  app_try
    (agro_response <- create_agro_polygon (PolygonCreate.name polygon_data)
                        (PolygonCreate.coordinates polygon_data) ;;
     if negb (truthy agro_response) then
       app_raise (HTTPException 400 "Failed to create polygon in external API")
     else
       fresh_id <- (fun db => (Ok (uuid4 sv (List.length (calls db))), db)) ;;
       id <- app_lift (py_get agro_response "id" (VStr fresh_id)) ;;
       area <- app_lift (py_get agro_response "area" (VInt 0)) ;;
       center <- app_lift (py_get agro_response "center" (VList [VInt 0; VInt 0])) ;;
       created_at <- in_cache (utcnow (surroundings sv)) ;;
       polygon <- app_lift (Polygon_fields id (PolygonCreate.name polygon_data)
                              (PolygonCreate.coordinates polygon_data)
                              (PolygonCreate.farmer_id polygon_data) area center created_at) ;;
       insert_polygon polygon ;;
       app_ret polygon)%app
    (fun e => app_raise (HTTPException 500 "Failed to create polygon")).

(** *** The generative model *)

(** [get_gemini_response]: the model's text, or the apology on any
    exception; the image goes along when there are bytes of it. *)
Definition get_gemini_response (prompt : string) (image_data : option string) : App string :=
  let image := match image_data with
               | Some bytes => if truthy (VStr bytes) then Some bytes else None
               | None => None
               end in
  (n <- call (GeminiCall prompt image) ;;
   app_ret (match generate_content sv n prompt image with
            | Some text => text
            | None => apology
            end))%app.

Definition insert_chat (doc : Dict) : App unit :=
  (stored <- with_new_id doc ;;
   fun db =>
     (Ok tt,
      {| cache := cache db; polygons := polygons db;
         recommendations := recommendations db; market_prices := market_prices db;
         disease_detections := disease_detections db;
         chat_history := chat_history db ++ [stored]; calls := calls db |}))%app.

Definition optional_str (s : option string) : value :=
  match s with
  | Some x => VStr x
  | None => VNone
  end.

(** [POST /chat] *)
Definition agricultural_chat (chat_data : ChatMessage.t) : App Dict :=
  app_try
    (response <- get_gemini_response (chat_prompt chat_data) None ;;
     let result := [("response", VStr response); ("suggestions", VList (map VStr suggestions))] in
     created_at <- in_cache (utcnow (surroundings sv)) ;;
     insert_chat [("message", VStr (ChatMessage.message chat_data));
                  ("response", VStr response);
                  ("language", optional_str (ChatMessage.language chat_data));
                  ("created_at", VDatetime created_at)] ;;
     app_ret result)%app
    (fun e => app_raise (HTTPException 500 "Failed to process chat message")).

(** *** Disease detection *)

(** The inner [try]: the braces of the answer parsed as JSON, or one of
    the two fallbacks. *)
Definition parse_analysis (response : string) : value :=
  match brace_span response with
  | Some text =>
      match json_loads sv text with
      | Some result_data => result_data
      | None => VDict healthy_plant
      end
  | None => VDict analysis_incomplete
  end.

Definition str_field (d : Dict) (k : string) : option string :=
  match dict_lookup d k with
  | Some v => validate_str sv v
  | None => None
  end.

Definition str_list_field (d : Dict) (k : string) : option (list string) :=
  match dict_lookup d k with
  | Some v =>
      match validate_List (surroundings sv) v with
      | Some l => traverse (validate_str sv) l
      | None => None
      end
  | None => None
  end.

(** [DiseaseResult] built from the keys of [result_data], as [.dict()]
    lists it; keys it does not declare are ignored. *)
Definition DiseaseResult (result_data : value) : result Dict :=
  match result_data with
  | VDict d =>
      match str_field d "disease_name",
            match dict_lookup d "confidence" with
            | Some v => validate_float (surroundings sv) v
            | None => None
            end,
            str_list_field d "symptoms",
            str_list_field d "treatment",
            str_field d "severity",
            str_list_field d "prevention_tips" with
      | Some disease_name, Some confidence, Some symptoms, Some treatment,
        Some severity, Some prevention_tips =>
          Ok [("disease_name", VStr disease_name); ("confidence", VFloat confidence);
              ("symptoms", VList (map VStr symptoms));
              ("treatment", VList (map VStr treatment));
              ("severity", VStr severity);
              ("prevention_tips", VList (map VStr prevention_tips))]
      | _, _, _, _, _, _ => Raise ValidationError
      end
  | _ => Raise TypeError
  end.

Definition insert_detection (doc : Dict) : App unit :=
  (stored <- with_new_id doc ;;
   fun db =>
     (Ok tt,
      {| cache := cache db; polygons := polygons db;
         recommendations := recommendations db; market_prices := market_prices db;
         disease_detections := disease_detections db ++ [stored];
         chat_history := chat_history db; calls := calls db |}))%app.

(** [POST /disease-detection].  A failed [b64decode] raises
    [binascii.Error]; the handler looks at no exception's class, and the
    error stands here as [ValidationError]. *)
Definition detect_disease (detection_data : DiseaseDetection.t) : App Dict :=
  app_try
    (image_data <- app_lift (match b64decode sv (DiseaseDetection.image_base64 detection_data) with
                             | Some bytes => Ok bytes
                             | None => Raise ValidationError
                             end) ;;
     response <- get_gemini_response (disease_prompt detection_data) (Some image_data) ;;
     result <- app_lift (DiseaseResult (parse_analysis response)) ;;
     created_at <- in_cache (utcnow (surroundings sv)) ;;
     insert_detection [("result", VDict result);
                       ("crop_type", optional_str (DiseaseDetection.crop_type detection_data));
                       ("created_at", VDatetime created_at)] ;;
     app_ret result)%app
    (fun e => app_raise (HTTPException 500 "Failed to analyze image")).

End Routes.

(** *** Concrete services for the examples *)

Definition strict_str (v : value) : option string :=
  match v with VStr s => Some s | _ => None end.

(** Every outside service down, over the environment [E]. *)
Definition services_down (E : environment) : services :=
  {| surroundings := E;
     agro_polygons := fun _ _ _ => None;
     uuid4 := fun _ => "00000000-0000-4000-8000-000000000000";
     generate_content := fun _ _ _ => None;
     b64decode := fun s => Some s;
     json_loads := fun _ => None;
     validate_str := strict_str |}.

(** A polygon API that answers with an id and an area, and a model that
    answers with braces that are not JSON. *)
Definition services_up (E : environment) : services :=
  {| surroundings := E;
     agro_polygons := fun _ _ _ => Some (VDict [("id", VStr "5e9c1a1b"); ("area", VFloat 12.5)]);
     uuid4 := fun _ => "00000000-0000-4000-8000-000000000000";
     generate_content := fun _ _ _ => Some "The leaf shows {rust spots} near the tip.";
     b64decode := fun s => Some s;
     json_loads := fun _ => None;
     validate_str := strict_str |}.

Definition database_of (w : world) : database :=
  {| cache := w; polygons := []; recommendations := []; market_prices := [];
     disease_detections := []; chat_history := []; calls := [] |}.

Definition field_polygon : PolygonCreate.t :=
  {| PolygonCreate.name := "North field";
     PolygonCreate.coordinates := [[[77.1; 28.6]; [77.2; 28.6]; [77.2; 28.7]; [77.1; 28.6]]]%float;
     PolygonCreate.farmer_id := "farmer-1" |}.

(** *** Vocabulary of the theorems on the other routes *)

(** The provider requests the recommendation route sends. *)
Definition recommendation_requests (city : string) (polygon_id : option string)
  : list http_request :=
  match polygon_id with
  | Some p => if truthy (VStr p) then [SoilRequest p; WeatherRequest city]
              else [WeatherRequest city]
  | None => [WeatherRequest city]
  end.

Fixpoint has_char (c : ascii) (s : string) : bool :=
  match s with
  | EmptyString => false
  | String c' s' => (c' =? c)%char || has_char c s'
  end.



Definition leaf_photo : DiseaseDetection.t :=
  {| DiseaseDetection.image_base64 := "aGVsbG8=";
     DiseaseDetection.crop_type := Some "Wheat" |}.

(** The services [sv] with a decoder that rejects every image. *)
Definition no_decoder (sv : services) : services :=
  {| surroundings := surroundings sv;
     agro_polygons := agro_polygons sv;
     uuid4 := uuid4 sv;
     generate_content := generate_content sv;
     b64decode := fun _ => None;
     json_loads := json_loads sv;
     validate_str := validate_str sv |}.

(** ** Facts about the recommendation table *)

Ltac score_cases H :=
  unfold score_values in H; simpl in H;
  repeat (destruct H as [H | H]; [rewrite <- H; clear H | ]); [ .. | destruct H].

Lemma rate_crop_numeric (t m : value) (crop : Crop.t) (tn mn : number) :
  as_number t = Some tn -> as_number m = Some mn ->
  exists r, rate_crop t m crop = Ok (Some r) /\ rated_as crop r.
Proof.
  intros Ht Hm. unfold rate_crop, py_le, py_gt.
  destruct (Crop.temp_range crop) as [temp_min temp_max].
  rewrite Ht, Hm. simpl as_number. cbv beta iota.
  generalize (compare_numbers (NInt temp_min) tn) (compare_numbers tn (NInt temp_max))
             (compare_numbers mn (NFloat 0.3)) (compare_numbers (NFloat 0.15) mn)
             (compare_numbers mn (NFloat 0.4)).
  intros c1 c2 c3 c4 c5.
  destruct (Crop.moisture_req crop =? "high")%string,
           (Crop.moisture_req crop =? "medium")%string;
    destruct c1 as [[]|], c2 as [[]|], c3 as [[]|]; cbn -[PrimFloat.add PrimFloat.ltb];
    try (destruct c4 as [[]|]; cbn -[PrimFloat.add PrimFloat.ltb]);
    try (destruct c5 as [[]|]; cbn -[PrimFloat.add PrimFloat.ltb]);
    (eexists; split; [ vm_compute; reflexivity | split; [reflexivity | vm_compute; tauto ] ]).
Qed.

Lemma rate_crops_numeric (t m : value) (tn mn : number) :
  as_number t = Some tn -> as_number m = Some mn ->
  forall crops acc, exists recs,
    rate_crops t m crops acc = Ok (acc ++ recs) /\ Forall2 rated_as crops recs.
Proof.
  intros Ht Hm. induction crops as [|crop rest IH]; intros acc.
  - exists []. rewrite app_nil_r. split; [reflexivity | constructor].
  - destruct (rate_crop_numeric t m crop tn mn Ht Hm) as [r [Hr Hrated]].
    destruct (IH (acc ++ [r])) as [recs [Hrecs Hall]].
    exists (r :: recs). simpl. rewrite Hr. simpl. rewrite Hrecs, <- app_assoc.
    split; [reflexivity | constructor; assumption].
Qed.

Lemma insert_by_confidence_perm (x : CropRecommendation) (l : list CropRecommendation) :
  Permutation (insert_by_confidence x l) (x :: l).
Proof.
  induction l as [|y l IH]; simpl.
  - apply Permutation_refl.
  - destruct (PrimFloat.ltb (confidence_score x) (confidence_score y)).
    + eapply perm_trans; [apply perm_skip, IH | apply perm_swap].
    + apply Permutation_refl.
Qed.

Lemma sort_by_confidence_perm (l : list CropRecommendation) :
  Permutation (sort_by_confidence l) l.
Proof.
  induction l as [|x l IH]; simpl.
  - constructor.
  - eapply perm_trans; [apply insert_by_confidence_perm | apply perm_skip, IH].
Qed.

(** On the four possible scores the float order is total. *)
Lemma score_order_total (a b : float) :
  In a score_values -> In b score_values ->
  (PrimFloat.ltb a b = true -> PrimFloat.leb a b = true) /\
  (PrimFloat.ltb a b = false -> PrimFloat.leb b a = true).
Proof.
  intros Ha Hb. score_cases Ha; score_cases Hb; vm_compute; split; congruence.
Qed.

Lemma score_bounds (a : float) :
  In a score_values -> PrimFloat.ltb 0.6 a = true /\ PrimFloat.leb a 1.0 = true.
Proof.
  intros Ha. score_cases Ha; vm_compute; split; reflexivity.
Qed.

Lemma insert_by_confidence_sorted (x : CropRecommendation) (l : list CropRecommendation) :
  In (confidence_score x) score_values -> scored l ->
  Sorted by_confidence_desc l -> Sorted by_confidence_desc (insert_by_confidence x l).
Proof.
  intros Hx Hl Hs. induction l as [|y l IH]; simpl.
  - repeat constructor.
  - inversion Hl as [|? ? Hy Hl']; subst. inversion Hs as [|? ? Hs' Hhd]; subst.
    destruct (score_order_total _ _ Hx Hy) as [Hlt Hge].
    destruct (PrimFloat.ltb (confidence_score x) (confidence_score y)) eqn:E.
    + constructor; [apply IH; assumption |].
      destruct l as [|z l]; simpl.
      * constructor. apply Hlt; reflexivity.
      * destruct (PrimFloat.ltb (confidence_score x) (confidence_score z)).
        -- constructor. inversion Hhd; assumption.
        -- constructor. apply Hlt; reflexivity.
    + constructor; [assumption |]. constructor. apply Hge; reflexivity.
Qed.

Lemma sort_by_confidence_sorted (l : list CropRecommendation) :
  scored l -> Sorted by_confidence_desc (sort_by_confidence l).
Proof.
  induction 1 as [|x l Hx Hl IH]; simpl.
  - constructor.
  - apply insert_by_confidence_sorted; [assumption | | assumption].
    unfold scored. eapply Permutation_Forall; [| exact Hl].
    apply Permutation_sym, sort_by_confidence_perm.
Qed.

Lemma rated_names (crops : list Crop.t) (recs : list CropRecommendation) :
  Forall2 rated_as crops recs ->
  map crop_name recs = map Crop.name crops /\ scored recs.
Proof.
  induction 1 as [|c r cs rs [Hn Hs] _ [IHn IHs]]; simpl.
  - split; [reflexivity | constructor].
  - split; [congruence | constructor; assumption].
Qed.

(** C10, as the code has it: whenever the temperature reading (the first
    day's [temp], 25 by default) and the moisture reading (0.2 by
    default) are numbers, [generate_crop_recommendations] returns
    exactly 5 recommendations, one per crop of the table, in
    non-increasing order of [confidence_score], each score in
    (0.6, 1.0].  With any other reading the function raises. *)
Theorem recommendations_for_numeric_readings (weather_data soil_data : Dict) (location : string)
    (t : value) (tn mn : number) :
  current_temp_of weather_data = Ok t ->
  as_number t = Some tn ->
  as_number (soil_moisture_of soil_data) = Some mn ->
  exists recs,
    generate_crop_recommendations weather_data soil_data location = Ok recs /\
    List.length recs = 5%nat /\
    Permutation (map crop_name recs) (map Crop.name crops_db) /\
    Sorted by_confidence_desc recs /\
    Forall score_in_bounds recs.
Proof.
  intros Hw Ht Hm.
  destruct (rate_crops_numeric t (soil_moisture_of soil_data) tn mn Ht Hm crops_db [])
    as [recs [Hrecs Hall]].
  destruct (rated_names _ _ Hall) as [Hnames Hscored].
  assert (Hlen : List.length recs = 5%nat).
  { apply Forall2_length in Hall. rewrite <- Hall. reflexivity. }
  assert (Hperm := sort_by_confidence_perm recs).
  assert (Hcut : firstn 5 (sort_by_confidence recs) = sort_by_confidence recs).
  { apply firstn_all2. rewrite (Permutation_length Hperm), Hlen. apply Nat.le_refl. }
  exists (sort_by_confidence recs).
  unfold generate_crop_recommendations. rewrite Hw. cbn [rbind].
  rewrite Hrecs. cbn [rbind app]. rewrite Hcut.
  split; [reflexivity |].
  split; [rewrite (Permutation_length Hperm); exact Hlen |].
  split; [rewrite <- Hnames; apply Permutation_map; exact Hperm |].
  split; [apply sort_by_confidence_sorted; exact Hscored |].
  eapply Permutation_Forall; [apply Permutation_sym; exact Hperm |].
  unfold scored in Hscored. eapply Forall_impl; [| exact Hscored].
  intros r Hr. apply score_bounds; exact Hr.
Qed.






(** C10 fails as stated: a weather body whose [days] is empty makes
    [weather_data["days"][0]] raise, and no list is returned. *)
Lemma empty_days_counterexample :
  generate_crop_recommendations [("days", VList [])] [] "Delhi" = Raise IndexError.
Proof. reflexivity. Qed.

Lemma recommendations_for_numeric_readings_witness :
  exists recs,
    generate_crop_recommendations
      [("days", VList [VDict [("temp", VFloat 32.5)]])] [("moisture", VFloat 0.35)] "Delhi"
    = Ok recs /\
    List.length recs = 5%nat /\
    Permutation (map crop_name recs) (map Crop.name crops_db) /\
    Sorted by_confidence_desc recs /\
    Forall score_in_bounds recs.
Proof.
  apply (recommendations_for_numeric_readings _ _ "Delhi" (VFloat 32.5) (NFloat 32.5) (NFloat 0.35));
    reflexivity.
Defined.

(** ** Documents and the store *)

Lemma keep_id_lookup (old replacement : Dict) (field : string) :
  (field =? "_id")%string = false ->
  dict_lookup (keep_id old replacement) field = dict_lookup replacement field.
Proof.
  intros Hf. unfold keep_id. destruct (dict_lookup old "_id"); [| reflexivity].
  cbn [dict_lookup]. rewrite String.eqb_sym, Hf. reflexivity.
Qed.

Lemma field_is_inj (field k1 k2 : string) (doc : Dict) :
  field_is field k1 doc = true -> field_is field k2 doc = true -> k1 = k2.
Proof.
  unfold field_is. destruct (dict_lookup doc field) as [[]|]; try discriminate.
  intros H1 H2. apply String.eqb_eq in H1, H2. congruence.
Qed.

(** Two documents with the same key value answer every key filter alike. *)
Lemma field_is_same (field key : string) (a b : Dict) :
  field_is field key a = true -> field_is field key b = true ->
  forall k, field_is field k a = field_is field k b.
Proof.
  unfold field_is. destruct (dict_lookup a field) as [[]|]; try discriminate.
  destruct (dict_lookup b field) as [[]|]; try discriminate.
  intros Ha Hb k. apply String.eqb_eq in Ha, Hb. congruence.
Qed.

Lemma field_gte_spec (t : Z) (doc : Dict) :
  field_gte "updated_at" t doc = true <-> exists u, updated_at_of doc = Some u /\ t <= u.
Proof.
  unfold field_gte, updated_at_of.
  destruct (dict_lookup doc "updated_at") as [[]|];
    try (split; [discriminate | intros [u [H _]]; discriminate]).
  split.
  - intros H. eexists. split; [reflexivity | apply Z.leb_le; exact H].
  - intros [u [H Hle]]. inversion H; subst. apply Z.leb_le; exact Hle.
Qed.

Lemma keep_id_stored_as (old doc : Dict) : stored_as doc (keep_id old doc).
Proof.
  unfold keep_id, stored_as. destruct (dict_lookup old "_id") as [oid|].
  - right. exists oid. reflexivity.
  - left. reflexivity.
Qed.

Lemma stored_as_lookup (doc stored : Dict) (field : string) :
  stored_as doc stored -> (field =? "_id")%string = false ->
  dict_lookup stored field = dict_lookup doc field.
Proof.
  intros [-> | [oid ->]] Hf; [reflexivity |].
  cbn [dict_lookup]. rewrite String.eqb_sym, Hf. reflexivity.
Qed.

Lemma replace_first_none (flt : Dict -> bool) (doc : Dict) (docs : list Dict) :
  replace_first flt doc docs = None -> Forall (fun d => flt d = false) docs.
Proof.
  induction docs as [|d docs IH]; simpl; intros H.
  - constructor.
  - destruct (flt d) eqn:Hd; [discriminate |].
    destruct (replace_first flt doc docs); [discriminate |].
    constructor; [exact Hd | apply IH; reflexivity].
Qed.

Lemma replace_first_some (flt : Dict -> bool) (doc : Dict) (docs docs' : list Dict) :
  replace_first flt doc docs = Some docs' ->
  exists pre old post,
    docs = pre ++ old :: post /\ docs' = pre ++ keep_id old doc :: post /\
    flt old = true /\ Forall (fun d => flt d = false) pre.
Proof.
  revert docs'. induction docs as [|d docs IH]; simpl; intros docs' H.
  - discriminate.
  - destruct (flt d) eqn:Hd.
    + inversion H; subst. exists [], d, docs. repeat split; [exact Hd | constructor].
    + destruct (replace_first flt doc docs) as [rest|]; [| discriminate].
      inversion H; subst.
      destruct (IH rest eq_refl) as [pre [old [post [H1 [H2 [H3 H4]]]]]].
      exists (d :: pre), old, post. subst. repeat split; [exact H3 | constructor; assumption].
Qed.

(** What an upsert leaves in a collection: the new document, in the place
    of the first match or at the end, after documents the filter rejects. *)
Lemma upsert_shape (flt : Dict -> bool) (doc : Dict) (docs : list Dict) (oid : N) :
  exists pre stored post,
    match replace_first flt doc docs with
    | Some docs' => docs'
    | None => docs ++ [("_id", VObjectId oid) :: doc]
    end = pre ++ stored :: post /\
    Forall (fun d => flt d = false) pre /\
    stored_as doc stored /\
    ((exists old, docs = pre ++ old :: post /\ flt old = true) \/
     (docs = pre /\ post = [])).
Proof.
  destruct (replace_first flt doc docs) as [docs'|] eqn:H.
  - destruct (replace_first_some _ _ _ _ H) as [pre [old [post [H1 [H2 [H3 H4]]]]]].
    exists pre, (keep_id old doc), post.
    repeat split; [exact H2 | exact H4 | apply keep_id_stored_as |].
    left. exists old. split; assumption.
  - exists docs, (("_id", VObjectId oid) :: doc), [].
    repeat split; [apply replace_first_none with doc; exact H | |].
    + right. exists (VObjectId oid). reflexivity.
    + right. split; reflexivity.
Qed.

Lemma filter_none {A} (p : A -> bool) (l : list A) :
  Forall (fun x => p x = false) l -> filter p l = [].
Proof.
  induction 1 as [|x l Hx _ IH]; simpl; [reflexivity | rewrite Hx; exact IH].
Qed.

Lemma find_skip {A} (p : A -> bool) (pre l : list A) :
  Forall (fun x => p x = false) pre -> find p (pre ++ l) = find p l.
Proof.
  induction 1 as [|x pre Hx _ IH]; simpl; [reflexivity | rewrite Hx; exact IH].
Qed.

Lemma find_none_iff {A} (p : A -> bool) (l : list A) :
  find p l = None <-> Forall (fun x => p x = false) l.
Proof.
  induction l as [|x l IH]; simpl.
  - split; [constructor | reflexivity].
  - destruct (p x) eqn:Hx.
    + split; [discriminate | intros H; inversion H; congruence].
    + rewrite IH. split; [constructor; assumption | intros H; inversion H; assumption].
Qed.

(** Swapping one element for another the predicate treats alike changes
    neither what [find] reports missing nor how many [filter] keeps. *)
Lemma filter_swap_length {A} (p : A -> bool) (pre post : list A) (x y : A) :
  p x = p y ->
  List.length (filter p (pre ++ y :: post)) = List.length (filter p (pre ++ x :: post)).
Proof.
  intros H. rewrite !filter_app, !length_app. simpl. rewrite H.
  destruct (p y); reflexivity.
Qed.

Lemma find_swap_rejected {A} (p : A -> bool) (pre post : list A) (x y : A) :
  p x = false -> p y = false -> find p (pre ++ y :: post) = find p (pre ++ x :: post).
Proof.
  intros Hx Hy. induction pre as [|z pre IH]; simpl.
  - rewrite Hx, Hy. reflexivity.
  - rewrite IH. reflexivity.
Qed.

Lemma find_app_rejected {A} (p : A -> bool) (l : list A) (y : A) :
  p y = false -> find p (l ++ [y]) = find p l.
Proof.
  intros Hy. induction l as [|z l IH]; simpl.
  - rewrite Hy. reflexivity.
  - rewrite IH. reflexivity.
Qed.

(** With at most one record of a key, two records of the key are one. *)
Lemma single_record {A} (p : A -> bool) (l : list A) (x y : A) :
  (List.length (filter p l) <= 1)%nat ->
  In x l -> p x = true -> In y l -> p y = true -> x = y.
Proof.
  intros Hlen Hx Hpx Hy Hpy.
  assert (Hx' : In x (filter p l)) by (apply filter_In; split; assumption).
  assert (Hy' : In y (filter p l)) by (apply filter_In; split; assumption).
  destruct (filter p l) as [|a [|b l']]; simpl in *.
  - contradiction.
  - destruct Hx' as [<- | []], Hy' as [<- | []]. reflexivity.
  - lia.
Qed.

Lemma find_ext {A} (p q : A -> bool) (l : list A) :
  (forall x, p x = q x) -> find p l = find q l.
Proof.
  intros H. induction l as [|x l IH]; simpl; [reflexivity | rewrite H, IH; reflexivity].
Qed.

(** ** The cache policy of the two routes *)

Section CachePolicy.

Variable E : environment.

Ltac run_handler :=
  cbv [route get_weather get_soil_data try_except bind ret raise lift utcnow find_one
       fetch_weather_data fetch_soil_data send WeatherData SoilData].

Ltac finish_refresh :=
  unfold refreshed, replace_one_upsert, advance;
  cbv [is_record_of collection_of key_field key_of fetch_of documents];
  cbn [weather soil next_oid clock_reads requests_sent app Nat.add];
  match goal with |- context [replace_first ?f ?d ?l] => destruct (replace_first f d l) end;
  reflexivity.

Lemma route_hit (r : request) (w : world) (doc : Dict) :
  cache_hit E r w = Some doc -> route E r w = (Ok doc, advance 1 [] w).
Proof.
  unfold cache_hit, now. intros H.
  destruct r; run_handler; cbv [documents collection_of is_record_of key_field key_of ttl_of] in *;
    cbn [documents weather soil next_oid clock_reads requests_sent];
    rewrite H; reflexivity.
Qed.

Lemma route_miss_ok (r : request) (w : world) (doc : Dict) :
  cache_hit E r w = None -> fetch_succeeds E r w doc ->
  route E r w = (Ok doc, refreshed r doc w).
Proof.
  unfold cache_hit, now, fetch_succeeds, now_next, fetched. intros H [Ht Hd].
  destruct r; run_handler; cbv [documents collection_of is_record_of key_field key_of ttl_of] in *;
    cbn [documents weather soil next_oid clock_reads requests_sent];
    rewrite H; cbn [weather soil next_oid clock_reads requests_sent].
  - rewrite Ht. unfold record_of, weather_record in Hd.
    destruct (py_get _ "currentConditions" _) as [current|]; cbn [rbind] in Hd; [|discriminate].
    destruct (py_get _ "days" _) as [days|]; cbn [rbind] in Hd; [|discriminate].
    cbn [rbind] in Hd. destruct (py_slice_to 7 days) as [forecast|]; cbn [rbind] in Hd; [|discriminate].
    cbn [rbind] in Hd. cbn [weather soil next_oid clock_reads requests_sent].
    rewrite Hd. finish_refresh.
  - rewrite Ht. unfold record_of, soil_record in Hd.
    destruct (py_get _ "t0" _) as [t0|]; cbn [rbind] in Hd; [|discriminate].
    destruct (py_sub_float t0 _) as [ts|]; cbn [rbind] in Hd; [|discriminate].
    destruct (py_get _ "t10" _) as [t10|]; cbn [rbind] in Hd; [|discriminate].
    destruct (py_sub_float t10 _) as [tt|]; cbn [rbind] in Hd; [|discriminate].
    destruct (py_get _ "moisture" _) as [m|]; cbn [rbind] in Hd; [|discriminate].
    cbn [weather soil next_oid clock_reads requests_sent].
    rewrite Hd. finish_refresh.
Qed.

Lemma route_miss_fail (r : request) (w : world) :
  cache_hit E r w = None -> fetch_fails E r w ->
  exists n,
    route E r w = (Raise (HTTPException 500 (failure_detail r)), advance n [fetch_of r] w).
Proof.
  unfold cache_hit, now, fetch_fails, now_next, fetched. intros H Hf.
  destruct r; run_handler; cbv [documents collection_of is_record_of key_field key_of ttl_of] in *;
    cbn [documents weather soil next_oid clock_reads requests_sent];
    rewrite H; cbn [weather soil next_oid clock_reads requests_sent];
    match goal with |- context [truthy ?v] => destruct (truthy v) eqn:Ht end;
    try (exists 1%nat; reflexivity);
    destruct Hf as [Hf | [e Hd]]; try discriminate.
  - unfold record_of, weather_record in Hd.
    destruct (py_get _ "currentConditions" _) as [current|]; cbn [rbind] in Hd;
      [| exists 1%nat; reflexivity].
    destruct (py_get _ "days" _) as [days|]; cbn [rbind] in Hd;
      [| exists 1%nat; reflexivity].
    destruct (py_slice_to 7 days) as [forecast|]; cbn [rbind] in Hd;
      [| exists 1%nat; reflexivity].
    cbn [weather soil next_oid clock_reads requests_sent].
    rewrite Hd. exists 2%nat; reflexivity.
  - unfold record_of, soil_record in Hd.
    destruct (py_get _ "t0" _) as [t0|]; cbn [rbind] in Hd; [| exists 1%nat; reflexivity].
    destruct (py_sub_float t0 _) as [ts|]; cbn [rbind] in Hd; [| exists 1%nat; reflexivity].
    destruct (py_get _ "t10" _) as [t10|]; cbn [rbind] in Hd; [| exists 1%nat; reflexivity].
    destruct (py_sub_float t10 _) as [tt|]; cbn [rbind] in Hd; [| exists 1%nat; reflexivity].
    destruct (py_get _ "moisture" _) as [m|]; cbn [rbind] in Hd; [| exists 1%nat; reflexivity].
    cbn [weather soil next_oid clock_reads requests_sent].
    rewrite Hd. exists 2%nat; reflexivity.
Qed.

(** Every request goes one of three ways. *)
Lemma route_cases (r : request) (w : world) :
  (exists doc, cache_hit E r w = Some doc /\ route E r w = (Ok doc, advance 1 [] w)) \/
  (cache_hit E r w = None /\ fetch_fails E r w /\
   exists n, route E r w
             = (Raise (HTTPException 500 (failure_detail r)), advance n [fetch_of r] w)) \/
  (cache_hit E r w = None /\
   exists doc, fetch_succeeds E r w doc /\ route E r w = (Ok doc, refreshed r doc w)).
Proof.
  destruct (cache_hit E r w) as [doc|] eqn:Hhit.
  - left. exists doc. split; [reflexivity | apply route_hit; exact Hhit].
  - right. destruct (truthy (fetched E r w)) eqn:Ht.
    + destruct (record_of E r (fetched E r w) (now_next E w)) as [doc|e] eqn:Hd.
      * right. split; [reflexivity |]. exists doc.
        split; [split; assumption | apply route_miss_ok; [assumption | split; assumption]].
      * left. split; [reflexivity |].
        assert (Hf : fetch_fails E r w) by (right; exists e; exact Hd).
        split; [exact Hf | apply route_miss_fail; assumption].
    + left. split; [reflexivity |].
      assert (Hf : fetch_fails E r w) by (left; exact Ht).
      split; [exact Hf | apply route_miss_fail; assumption].
Qed.

Lemma ttl_positive (r : request) : 0 < ttl_of r.
Proof. destruct r; reflexivity. Qed.

Lemma key_field_not_id (c : collection) : (key_field c =? "_id")%string = false.
Proof. destruct c; reflexivity. Qed.

Lemma cache_hit_none_iff (r : request) (w : world) :
  cache_hit E r w = None <-> no_fresh_record E r w.
Proof.
  unfold cache_hit, no_fresh_record, records_for. rewrite find_none_iff, Forall_forall.
  split.
  - intros H doc u Hin Hu. apply filter_In in Hin. destruct Hin as [Hin Hrec].
    specialize (H doc Hin). rewrite Hrec in H. simpl in H.
    destruct (Z.lt_ge_cases (ttl_of r) (now E w - u)) as [Hlt | Hge]; [exact Hlt |].
    assert (Hf : field_gte "updated_at" (now E w - ttl_of r) doc = true).
    { apply field_gte_spec. exists u. split; [exact Hu | lia]. }
    congruence.
  - intros H doc Hin.
    destruct (is_record_of r doc) eqn:Hrec; [| reflexivity]. simpl.
    destruct (field_gte "updated_at" (now E w - ttl_of r) doc) eqn:Hf; [| reflexivity].
    apply field_gte_spec in Hf. destruct Hf as [u [Hu Hle]].
    assert (Hlt : ttl_of r < now E w - u).
    { apply (H doc u); [apply filter_In; split; assumption | exact Hu]. }
    lia.
Qed.

Lemma cache_hit_some (r : request) (w : world) (doc : Dict) :
  cache_hit E r w = Some doc ->
  In doc (records_for r w) /\
  exists u, updated_at_of doc = Some u /\ now E w - u <= ttl_of r.
Proof.
  unfold cache_hit, records_for. intros H. apply find_some in H.
  destruct H as [Hin Hp]. apply andb_true_iff in Hp. destruct Hp as [Hrec Hf].
  split; [apply filter_In; split; assumption |].
  apply field_gte_spec in Hf. destruct Hf as [u [Hu Hle]].
  exists u. split; [exact Hu | lia].
Qed.

(** A record the key has once, within the window, is the one looked up. *)
Lemma cache_hit_single (r : request) (w : world) (doc : Dict) (u : Z) :
  (List.length (records_for r w) <= 1)%nat ->
  In doc (records_for r w) -> updated_at_of doc = Some u ->
  now E w - u <= ttl_of r ->
  cache_hit E r w = Some doc.
Proof.
  intros Hlen Hin Hu Hle.
  destruct (cache_hit E r w) as [doc'|] eqn:Hhit.
  - destruct (cache_hit_some _ _ _ Hhit) as [Hin' _].
    unfold records_for in *. apply filter_In in Hin, Hin'.
    f_equal. eapply single_record; [exact Hlen | apply Hin' | apply Hin' | apply Hin | apply Hin].
  - apply cache_hit_none_iff in Hhit. specialize (Hhit doc u Hin Hu). lia.
Qed.

(** The record built from a provider body carries the key of the
    request and the time it was built at. *)
Lemma record_of_shape (r : request) (body : value) (t : Z) (doc : Dict) :
  record_of E r body t = Ok doc ->
  is_record_of r doc = true /\ updated_at_of doc = Some t /\ dict_lookup doc "_id" = None.
Proof.
  destruct r; unfold record_of, weather_record, soil_record; intros H.
  - destruct (py_get body "currentConditions" _) as [current|]; cbn [rbind] in H;
      [| discriminate].
    destruct (py_get body "days" _) as [days|]; cbn [rbind] in H; [| discriminate].
    destruct (py_slice_to 7 days) as [forecast|]; cbn [rbind] in H; [| discriminate].
    unfold WeatherData_fields in H.
    destruct (validate_Dict E current); [| discriminate].
    destruct (match validate_List E forecast with
              | Some days0 => traverse (validate_Dict E) days0
              | None => None
              end); [| discriminate].
    inversion H; subst. unfold is_record_of, field_is, updated_at_of; simpl.
    rewrite String.eqb_refl. repeat split.
  - destruct (py_get body "t0" _) as [t0|]; cbn [rbind] in H; [| discriminate].
    destruct (py_sub_float t0 _) as [ts|]; cbn [rbind] in H; [| discriminate].
    destruct (py_get body "t10" _) as [t10|]; cbn [rbind] in H; [| discriminate].
    destruct (py_sub_float t10 _) as [tt|]; cbn [rbind] in H; [| discriminate].
    destruct (py_get body "moisture" _) as [m|]; cbn [rbind] in H; [| discriminate].
    unfold SoilData_fields in H.
    destruct (validate_float E m); [| discriminate].
    inversion H; subst. unfold is_record_of, field_is, updated_at_of; simpl.
    rewrite String.eqb_refl. repeat split.
Qed.

Lemma stored_as_record (r : request) (doc stored : Dict) :
  stored_as doc stored -> is_record_of r stored = is_record_of r doc.
Proof.
  intros H. unfold is_record_of, field_is.
  rewrite (stored_as_lookup _ _ _ H (key_field_not_id _)). reflexivity.
Qed.

Lemma stored_as_updated_at (doc stored : Dict) :
  stored_as doc stored -> updated_at_of stored = updated_at_of doc.
Proof.
  intros H. unfold updated_at_of. rewrite (stored_as_lookup doc stored "updated_at" H eq_refl). reflexivity.
Qed.

(** *** The world after a refresh *)

Lemma refreshed_documents (r : request) (doc : Dict) (w : world) :
  documents (collection_of r) (refreshed r doc w) =
  match replace_first (is_record_of r) doc (documents (collection_of r) w) with
  | Some docs' => docs'
  | None => documents (collection_of r) w ++ [("_id", VObjectId (next_oid w)) :: doc]
  end.
Proof.
  unfold refreshed, replace_one_upsert, advance.
  destruct r; cbn [collection_of documents weather soil next_oid];
    match goal with |- context [replace_first ?f ?d ?l] => destruct (replace_first f d l) end;
    reflexivity.
Qed.

Lemma refreshed_other_documents (r : request) (doc : Dict) (w : world) (c : collection) :
  c <> collection_of r -> documents c (refreshed r doc w) = documents c w.
Proof.
  unfold refreshed, replace_one_upsert, advance. intros Hc.
  destruct r, c; cbn [collection_of] in Hc; try congruence;
    cbn [collection_of documents weather soil next_oid];
    match goal with |- context [replace_first ?f ?d ?l] => destruct (replace_first f d l) end;
    reflexivity.
Qed.


Lemma refreshed_clock (r : request) (doc : Dict) (w : world) :
  clock_reads (refreshed r doc w) = S (S (clock_reads w)).
Proof.
  unfold refreshed, replace_one_upsert, advance.
  destruct r; cbn [collection_of documents weather soil next_oid];
    match goal with |- context [replace_first ?f ?d ?l] => destruct (replace_first f d l) end;
    reflexivity.
Qed.

(** After a refresh the new document is the first record of its key. *)
Lemma refreshed_shape (r : request) (doc : Dict) (w : world) :
  exists pre stored post,
    documents (collection_of r) (refreshed r doc w) = pre ++ stored :: post /\
    Forall (fun d => is_record_of r d = false) pre /\
    stored_as doc stored /\
    ((exists old, documents (collection_of r) w = pre ++ old :: post /\
                  is_record_of r old = true) \/
     (documents (collection_of r) w = pre /\ post = [])).
Proof.
  rewrite refreshed_documents. apply upsert_shape.
Qed.

Lemma same_store_advance (n : nat) (sent : list http_request) (w : world) :
  same_store w (advance n sent w).
Proof. repeat split. Qed.

(** *** Claims about a single request *)

(** C1: a stored record of the key that is within the freshness window
    ([now - updated_at < ttl]; one hour for weather, six for soil) is
    returned as stored, no provider request is sent and nothing is
    written to the store. *)
Theorem fresh_record_is_served (r : request) (w : world) (doc : Dict) (u : Z) :
  (List.length (records_for r w) <= 1)%nat ->
  In doc (records_for r w) ->
  updated_at_of doc = Some u ->
  now E w - u < ttl_of r ->
  exists w',
    route E r w = (Ok doc, w') /\
    requests_sent w' = requests_sent w /\
    same_store w w'.
Proof.
  intros Hlen Hin Hu Hlt.
  assert (Hhit : cache_hit E r w = Some doc).
  { apply cache_hit_single with u; [assumption .. | lia]. }
  exists (advance 1 [] w). split; [apply route_hit; exact Hhit |].
  split; [reflexivity | apply same_store_advance].
Qed.

(** C2: when the fetch fails (provider error, undecodable or empty
    body, or a body no record can be built from) the handler leaves
    the store exactly as it was: no record is added and no
    [updated_at] is touched; with no fresh record cached the request
    ends in an exception. *)
Theorem failed_fetch_writes_nothing (r : request) (w : world) :
  fetch_fails E r w ->
  same_store w (snd (route E r w)) /\
  (no_fresh_record E r w -> exists e, fst (route E r w) = Raise e).
Proof.
  intros Hf.
  destruct (route_cases r w) as [[doc [Hhit Hr]] | [[Hhit [_ [n Hr]]] | [Hhit [doc [Hs Hr]]]]];
    rewrite Hr; cbn [fst snd].
  - split; [apply same_store_advance |].
    intros Hno. apply cache_hit_none_iff in Hno. congruence.
  - split; [apply same_store_advance |]. intros _. eexists; reflexivity.
  - exfalso. destruct Hs as [Ht Hd], Hf as [Hf | [e Hf]]; congruence.
Qed.



(** *** Claims about sequences of requests *)

(** What a request does to the store: nothing, or one refresh. *)
Lemma route_effect (r : request) (w : world) :
  same_store w (snd (route E r w)) \/
  exists doc,
    cache_hit E r w = None /\ fetch_succeeds E r w doc /\
    snd (route E r w) = refreshed r doc w.
Proof.
  destruct (route_cases r w) as [[doc [_ Hr]] | [[_ [_ [n Hr]]] | [Hhit [doc [Hs Hr]]]]];
    rewrite Hr; cbn [snd].
  - left. apply same_store_advance.
  - left. apply same_store_advance.
  - right. exists doc. repeat split; try assumption; apply Hs.
Qed.

Lemma refreshed_one_per_key (r : request) (doc : Dict) (w : world) :
  is_record_of r doc = true ->
  one_per_key (key_field (collection_of r)) (documents (collection_of r) w) ->
  one_per_key (key_field (collection_of r)) (documents (collection_of r) (refreshed r doc w)).
Proof.
  intros Hrec Hinv key.
  destruct (refreshed_shape r doc w) as [pre [stored [post [Hdocs [Hpre [Has Hold]]]]]].
  assert (Hrec' : is_record_of r stored = true).
  { rewrite (stored_as_record r _ _ Has). exact Hrec. }
  rewrite Hdocs. specialize (Hinv key).
  destruct Hold as [[old [Hw Hold]] | [Hw ->]]; rewrite Hw in Hinv.
  - rewrite (filter_swap_length _ pre post old stored); [exact Hinv |].
    apply (field_is_same _ (key_of r)); assumption.
  - rewrite filter_app, length_app. simpl.
    destruct (field_is (key_field (collection_of r)) key stored) eqn:Hk; simpl; [| lia].
    assert (key = key_of r) by (eapply field_is_inj; eassumption). subst key.
    unfold is_record_of in Hpre. rewrite (filter_none _ _ Hpre). simpl. lia.
Qed.

Lemma route_keeps_invariant (r : request) (w : world) :
  store_invariant w -> store_invariant (snd (route E r w)).
Proof.
  intros [Hw Hs]. destruct (route_effect r w) as [[Ew [Es _]] | [doc [_ [Hsucc Hr]]]].
  - unfold store_invariant. rewrite Ew, Es. split; assumption.
  - rewrite Hr. destruct (record_of_shape _ _ _ _ (proj2 Hsucc)) as [Hrec _].
    destruct r; split.
    + apply (refreshed_one_per_key (GET_weather city)); assumption.
    + change (soil ?x) with (documents db_soil x).
      rewrite refreshed_other_documents; [exact Hs | discriminate].
    + change (weather ?x) with (documents db_weather x).
      rewrite refreshed_other_documents; [exact Hw | discriminate].
    + apply (refreshed_one_per_key (GET_soil polygon_id)); assumption.
Qed.

(** C6: whatever requests are served, one after the other, a store
    with at most one weather record per city and at most one soil
    record per polygon stays such a store. *)
Theorem one_record_per_key_preserved (rs : list request) (w : world) :
  store_invariant w -> store_invariant (serve E rs w).
Proof.
  revert w. induction rs as [|r rs IH]; intros w Hw; simpl.
  - exact Hw.
  - apply IH, route_keeps_invariant, Hw.
Qed.

Lemma same_store_documents (c : collection) (w w' : world) :
  same_store w w' -> documents c w' = documents c w.
Proof. intros [Hw [Hs _]]. destruct c; assumption. Qed.

Lemma collection_eq_dec (c c' : collection) : {c = c'} + {c <> c'}.
Proof. decide equality. Qed.

(** One request never moves the time stamp of a key backwards. *)
Lemma route_updated_at (q r : request) (w : world) (u : Z) :
  (forall n, utc_clock E n <= utc_clock E (S n)) ->
  stored_updated_at q w = Some u ->
  exists u', stored_updated_at q (snd (route E r w)) = Some u' /\ u <= u'.
Proof.
  intros Hclock Hq.
  destruct (route_effect r w) as [Hsame | [doc [Hhit [Hsucc Hr]]]].
  - exists u. split; [| lia]. unfold stored_updated_at, stored_record in *.
    rewrite (same_store_documents _ _ _ Hsame). exact Hq.
  - rewrite Hr. destruct (collection_eq_dec (collection_of q) (collection_of r)) as [Hc | Hc].
    + destruct (record_of_shape _ _ _ _ (proj2 Hsucc)) as [Hrec [Hu _]].
      destruct (refreshed_shape r doc w) as [pre [stored [post [Hdocs [Hpre [Has Hold]]]]]].
      assert (Hrec' : is_record_of r stored = true).
      { rewrite (stored_as_record r _ _ Has). exact Hrec. }
      unfold stored_updated_at, stored_record in *. rewrite Hc in *. rewrite Hdocs.
      destruct (String.eqb_spec (key_of q) (key_of r)) as [Hk | Hk].
      * assert (Hp : forall d, is_record_of q d = is_record_of r d).
        { intros d. unfold is_record_of. rewrite Hc, Hk. reflexivity. }
        rewrite (find_ext _ _ _ Hp) in Hq. rewrite (find_ext _ _ _ Hp).
        rewrite (find_skip _ _ _ Hpre). simpl. rewrite Hrec'.
        rewrite (stored_as_updated_at _ _ Has), Hu.
        exists (now_next E w). split; [reflexivity |].
        destruct Hold as [[old [Hw Hold]] | [Hw _]]; rewrite Hw in Hq.
        -- rewrite (find_skip _ _ _ Hpre) in Hq. simpl in Hq. rewrite Hold in Hq.
           apply cache_hit_none_iff in Hhit.
           assert (Hlt : ttl_of r < now E w - u).
           { apply (Hhit old u); [| exact Hq]. unfold records_for. rewrite Hw.
             apply filter_In. split; [apply in_elt | exact Hold]. }
           pose proof (ttl_positive r). pose proof (Hclock (clock_reads w)).
           unfold now, now_next in *. lia.
        -- rewrite (proj2 (find_none_iff _ _) Hpre) in Hq. discriminate.
      * assert (Hp : forall d, is_record_of r d = true -> is_record_of q d = false).
        { intros d Hd. destruct (is_record_of q d) eqn:Hqd; [| reflexivity].
          exfalso. apply Hk. unfold is_record_of in Hd, Hqd. rewrite Hc in Hqd.
          eapply field_is_inj; eassumption. }
        exists u. split; [| lia].
        destruct Hold as [[old [Hw Hold]] | [Hw ->]]; rewrite Hw in Hq.
        -- rewrite (find_swap_rejected _ pre post old stored); [exact Hq | |];
             apply Hp; assumption.
        -- rewrite find_app_rejected; [exact Hq | apply Hp; exact Hrec'].
    + exists u. split; [| lia]. unfold stored_updated_at, stored_record in *.
      rewrite refreshed_other_documents; [exact Hq | exact Hc].
Qed.

(** C7: over any sequence of requests, and with a clock whose readings
    never go back, the [updated_at] of the stored record of a key
    never decreases: a refresh writes a time at or after the one it
    replaces. *)
Theorem updated_at_never_decreases (rs : list request) (q : request) (w : world) (u : Z) :
  (forall n, utc_clock E n <= utc_clock E (S n)) ->
  stored_updated_at q w = Some u ->
  exists u', stored_updated_at q (serve E rs w) = Some u' /\ u <= u'.
Proof.
  intros Hclock. revert w u. induction rs as [|r rs IH]; intros w u Hq; simpl.
  - exists u. split; [exact Hq | lia].
  - destruct (route_updated_at q r w u Hclock Hq) as [u1 [H1 Hle1]].
    destruct (IH _ _ H1) as [u2 [H2 Hle2]].
    exists u2. split; [exact H2 | lia].
Qed.


End CachePolicy.

(** ** The claims at concrete inputs *)

(** Either a document is served or the client sees status 500: the
    [HTTPException] with status 404 raised inside the [try] block is
    caught by the [except Exception] clause around it. *)
Lemma route_status (E : environment) (r : request) (w : world) :
  status_of (fst (route E r w)) = 200 \/ status_of (fst (route E r w)) = 500.
Proof.
  destruct (route_cases E r w) as [[doc [_ Hr]] | [[_ [_ [n Hr]]] | [_ [doc [_ Hr]]]]];
    rewrite Hr; [left | right | left]; reflexivity.
Qed.

(** C5 does not hold of the code: with the providers down, a request
    for a city whose record is stale and a request for a polygon with
    no record both end in status 500, not 404 (the outcome is the same
    in both cases, and the stale record is not served). *)
Theorem failed_fetch_reports_500 :
  route providers_down (GET_weather "Mumbai") later_world
  = (Raise (HTTPException 500 "Failed to fetch weather data"),
     advance 1 [WeatherRequest "Mumbai"] later_world) /\
  route providers_down (GET_soil "poly999") empty_world
  = (Raise (HTTPException 500 "Failed to fetch soil data"),
     advance 1 [SoilRequest "poly999"] empty_world).
Proof. split; reflexivity. Qed.

(** At thirty minutes the Mumbai record, written at 0, is served. *)
Lemma fresh_record_is_served_witness :
  exists w',
    route (at_time (30 * minute)) (GET_weather "Mumbai") stocked_world = (Ok mumbai_record, w') /\
    requests_sent w' = requests_sent stocked_world /\
    same_store stocked_world w'.
Proof.
  apply (fresh_record_is_served (at_time (30 * minute)) (GET_weather "Mumbai")
           stocked_world mumbai_record 0).
  - simpl. lia.
  - left. reflexivity.
  - reflexivity.
  - reflexivity.
Defined.

(** With the providers down a request on the empty store writes nothing. *)
Lemma failed_fetch_writes_nothing_witness :
  same_store empty_world (snd (route providers_down (GET_soil "poly123") empty_world)) /\
  (no_fresh_record providers_down (GET_soil "poly123") empty_world ->
   exists e, fst (route providers_down (GET_soil "poly123") empty_world) = Raise e).
Proof.
  apply (failed_fetch_writes_nothing providers_down (GET_soil "poly123") empty_world).
  left. reflexivity.
Defined.





Lemma stocked_world_invariant : store_invariant stocked_world.
Proof.
  split; intros key; simpl.
  - destruct (field_is "city" key mumbai_record); simpl; lia.
  - destruct (field_is "polygon_id" key poly123_record); simpl; lia.
Defined.

(** Three requests on the stocked store leave one record per key. *)
Lemma one_record_per_key_preserved_witness :
  store_invariant
    (serve fair_weather [GET_weather "Delhi"; GET_soil "poly123"; GET_weather "Delhi"]
       later_world).
Proof.
  apply (one_record_per_key_preserved fair_weather
           [GET_weather "Delhi"; GET_soil "poly123"; GET_weather "Delhi"] later_world).
  exact stocked_world_invariant.
Defined.

(** With the ten-minute clock the Mumbai time stamp only moves forward. *)
Lemma updated_at_never_decreases_witness :
  exists u',
    stored_updated_at (GET_weather "Mumbai")
      (serve fair_weather [GET_weather "Mumbai"; GET_soil "poly123"; GET_weather "Mumbai"]
         later_world)
    = Some u' /\ 0 <= u'.
Proof.
  apply (updated_at_never_decreases fair_weather
           [GET_weather "Mumbai"; GET_soil "poly123"; GET_weather "Mumbai"]
           (GET_weather "Mumbai") later_world 0).
  - intros n. unfold fair_weather, minute. cbn [utc_clock]. lia.
  - reflexivity.
Defined.


(** X1: a temperature or moisture reading that is not a number makes
    the function raise [TypeError]. *)
Theorem non_numeric_reading_raises (weather_data soil_data : Dict) (location : string)
    (t : value) :
  current_temp_of weather_data = Ok t ->
  as_number t = None \/ as_number (soil_moisture_of soil_data) = None ->
  generate_crop_recommendations weather_data soil_data location = Raise TypeError.
Proof.
  intros Hw Hbad. unfold generate_crop_recommendations. rewrite Hw. cbn [rbind].
  unfold crops_db. cbn [rate_crops]. unfold rate_crop at 1. cbn [Crop.temp_range].
  unfold py_le at 1. cbn [as_number].
  destruct (as_number t) as [tn|] eqn:Ht; [| reflexivity].
  destruct Hbad as [Hbad | Hbad]; [discriminate |].
  cbn [rbind]. unfold py_le, py_gt. cbn [as_number]. rewrite Ht, Hbad.
  cbn [Crop.moisture_req Crop.name].
  destruct (match compare_numbers (NInt 20) tn with
            | Some Lt | Some Eq => true | _ => false end);
    cbn [py_and rbind];
    [ destruct (match compare_numbers tn (NInt 35) with
                | Some Lt | Some Eq => true | _ => false end) | ];
    reflexivity.
Qed.

Lemma score_below_one (a : float) :
  In a score_values -> PrimFloat.ltb a 1.0 = true.
Proof.
  intros Ha. score_cases Ha; reflexivity.
Qed.

(** X2: with numeric readings every score is one of the four sums
    0.7, 0.7 + 0.2, 0.7 + 0.1 and 0.7 + 0.2 + 0.1 in binary64, each
    strictly below 1.0: the cap [min(confidence, 1.0)] never changes a
    score. *)
Theorem scores_stay_below_cap (weather_data soil_data : Dict) (location : string)
    (t : value) (tn mn : number) :
  current_temp_of weather_data = Ok t ->
  as_number t = Some tn ->
  as_number (soil_moisture_of soil_data) = Some mn ->
  exists recs,
    generate_crop_recommendations weather_data soil_data location = Ok recs /\
    Forall (fun r => In (confidence_score r) score_values /\
                     PrimFloat.ltb (confidence_score r) 1.0 = true) recs.
Proof.
  intros Hw Ht Hm.
  destruct (rate_crops_numeric t (soil_moisture_of soil_data) tn mn Ht Hm crops_db [])
    as [rated [Hrated Hall]].
  destruct (rated_names _ _ Hall) as [_ Hscored].
  assert (Hlen : List.length rated = 5%nat).
  { apply Forall2_length in Hall. rewrite <- Hall. reflexivity. }
  assert (Hcut : firstn 5 (sort_by_confidence rated) = sort_by_confidence rated).
  { apply firstn_all2.
    rewrite (Permutation_length (sort_by_confidence_perm rated)), Hlen. apply Nat.le_refl. }
  exists (sort_by_confidence rated).
  unfold generate_crop_recommendations. rewrite Hw. cbn [rbind].
  rewrite Hrated. cbn [rbind app]. rewrite Hcut. split; [reflexivity |].
  apply Forall_forall. intros r Hin.
  apply (Permutation_in _ (sort_by_confidence_perm rated)) in Hin.
  unfold scored in Hscored. rewrite Forall_forall in Hscored.
  split; [apply Hscored; exact Hin | apply score_below_one, Hscored; exact Hin].
Qed.

Lemma scores_stay_below_cap_witness :
  exists recs,
    generate_crop_recommendations reported_25 reported_02 "Pune" = Ok recs /\
    Forall (fun r => In (confidence_score r) score_values /\
                     PrimFloat.ltb (confidence_score r) 1.0 = true) recs.
Proof.
  apply (scores_stay_below_cap reported_25 reported_02 "Pune" (VInt 25) (NInt 25) (NFloat 0.2));
    reflexivity.
Defined.

Lemma non_numeric_reading_raises_witness :
  generate_crop_recommendations [("days", VList [VDict [("temp", VNone)]])] [] "Pune"
  = Raise TypeError.
Proof.
  apply (non_numeric_reading_raises _ _ "Pune" VNone); [reflexivity | left; reflexivity].
Defined.

(** Two of the four scores are in order one way or the other, or equal. *)
Lemma score_trichotomy (a b : float) :
  In a score_values -> In b score_values ->
  PrimFloat.ltb a b = false -> PrimFloat.ltb b a = true \/ a = b.
Proof.
  intros Ha Hb. score_cases Ha; score_cases Hb; vm_compute; intros H;
    first [discriminate | left; reflexivity | right; reflexivity].
Qed.

Lemma insert_by_confidence_ranked (x : CropRecommendation) (l : list CropRecommendation) :
  In (confidence_score x) score_values -> scored l ->
  Forall (fun y => (table_index x < table_index y)%nat) l ->
  Sorted ranks_before l -> Sorted ranks_before (insert_by_confidence x l).
Proof.
  intros Hx Hl Hidx Hs. induction l as [|y l IH]; simpl.
  - repeat constructor.
  - inversion Hl as [|? ? Hy Hl']; subst. inversion Hs as [|? ? Hs' Hhd]; subst.
    inversion Hidx as [|? ? Hxy Hidx']; subst.
    destruct (PrimFloat.ltb (confidence_score x) (confidence_score y)) eqn:E.
    + constructor; [apply IH; assumption |].
      destruct l as [|z l]; simpl.
      * constructor. left. exact E.
      * destruct (PrimFloat.ltb (confidence_score x) (confidence_score z)).
        -- constructor. inversion Hhd; assumption.
        -- constructor. left. exact E.
    + constructor; [assumption |]. constructor.
      destruct (score_trichotomy _ _ Hx Hy E) as [Hlt | Heq].
      * left. exact Hlt.
      * right. split; assumption.
Qed.

Lemma sort_by_confidence_ranked (l : list CropRecommendation) :
  scored l ->
  StronglySorted (fun a b => (table_index a < table_index b)%nat) l ->
  Sorted ranks_before (sort_by_confidence l).
Proof.
  intros Hl Hs. induction Hs as [|x l Hs IH Hx]; simpl.
  - constructor.
  - inversion Hl as [|? ? Hsx Hl']; subst.
    apply insert_by_confidence_ranked; [assumption | | | apply IH; assumption].
    + unfold scored. eapply Permutation_Forall; [| exact Hl'].
      apply Permutation_sym, sort_by_confidence_perm.
    + eapply Permutation_Forall; [| exact Hx].
      apply Permutation_sym, sort_by_confidence_perm.
Qed.

(** The rated crops come in table order. *)
Lemma rated_in_table_order (rated : list CropRecommendation) :
  Forall2 rated_as crops_db rated ->
  StronglySorted (fun a b => (table_index a < table_index b)%nat) rated.
Proof.
  intros H. unfold crops_db in H.
  repeat match goal with
         | H : Forall2 _ (_ :: _) _ |- _ => inversion H; clear H; subst
         | H : Forall2 _ [] _ |- _ => inversion H; clear H; subst
         end.
  repeat match goal with H : rated_as _ _ |- _ => destruct H as [? _] end.
  repeat constructor; unfold table_index;
    repeat match goal with H : crop_name _ = _ |- _ => rewrite H; clear H end;
    cbn; lia.
Qed.

(** X3: with numeric readings the result is ordered by score, highest
    first, and recommendations of equal score keep the order of the
    table (Rice, Wheat, Cotton, Sugarcane, Maize). *)
Theorem ties_keep_table_order (weather_data soil_data : Dict) (location : string)
    (t : value) (tn mn : number) :
  current_temp_of weather_data = Ok t ->
  as_number t = Some tn ->
  as_number (soil_moisture_of soil_data) = Some mn ->
  exists recs,
    generate_crop_recommendations weather_data soil_data location = Ok recs /\
    Sorted ranks_before recs.
Proof.
  intros Hw Ht Hm.
  destruct (rate_crops_numeric t (soil_moisture_of soil_data) tn mn Ht Hm crops_db [])
    as [rated [Hrated Hall]].
  destruct (rated_names _ _ Hall) as [_ Hscored].
  assert (Hlen : List.length rated = 5%nat).
  { apply Forall2_length in Hall. rewrite <- Hall. reflexivity. }
  assert (Hcut : firstn 5 (sort_by_confidence rated) = sort_by_confidence rated).
  { apply firstn_all2.
    rewrite (Permutation_length (sort_by_confidence_perm rated)), Hlen. apply Nat.le_refl. }
  exists (sort_by_confidence rated).
  unfold generate_crop_recommendations. rewrite Hw. cbn [rbind].
  rewrite Hrated. cbn [rbind app]. rewrite Hcut. split; [reflexivity |].
  apply sort_by_confidence_ranked; [exact Hscored | apply rated_in_table_order; exact Hall].
Qed.

Lemma ties_keep_table_order_witness :
  exists recs,
    generate_crop_recommendations reported_25 reported_02 "Pune" = Ok recs /\
    Sorted ranks_before recs.
Proof.
  apply (ties_keep_table_order reported_25 reported_02 "Pune" (VInt 25) (NInt 25) (NFloat 0.2));
    reflexivity.
Defined.

(** ** More on the cache policy *)

Section CacheStore.

Variable E : environment.

(** A record of one key is no record of another key of the collection. *)
Lemma other_key_rejected (q r : request) (d : Dict) :
  collection_of q = collection_of r -> key_of q <> key_of r ->
  is_record_of r d = true -> is_record_of q d = false.
Proof.
  intros Hc Hk Hd. destruct (is_record_of q d) eqn:Hqd; [| reflexivity].
  exfalso. apply Hk. unfold is_record_of in Hd, Hqd. rewrite Hc in Hqd.
  eapply field_is_inj; eassumption.
Qed.

(** X4: a request touches the records of its own key only: the records
    of every other key, and of the other collection, are what they
    were. *)
Theorem other_keys_untouched (q r : request) (w : world) :
  collection_of q <> collection_of r \/ key_of q <> key_of r ->
  records_for q (snd (route E r w)) = records_for q w.
Proof.
  intros Hother. unfold records_for.
  destruct (route_effect E r w) as [Hsame | [doc [_ [Hsucc Hr]]]].
  - rewrite (same_store_documents _ _ _ Hsame). reflexivity.
  - rewrite Hr.
    destruct (collection_eq_dec (collection_of q) (collection_of r)) as [Hc | Hc];
      [| rewrite refreshed_other_documents; [reflexivity | exact Hc]].
    destruct Hother as [Hne | Hk]; [contradiction |].
    destruct (record_of_shape _ _ _ _ _ (proj2 Hsucc)) as [Hrec _].
    rewrite Hc.
    destruct (refreshed_shape r doc w) as [pre [stored [post [Hdocs [_ [Has Hold]]]]]].
    assert (Hq : is_record_of q stored = false).
    { apply (other_key_rejected q r); [assumption .. |].
      rewrite (stored_as_record r _ _ Has). exact Hrec. }
    rewrite Hdocs, filter_app. cbn [filter]. rewrite Hq.
    destruct Hold as [[old [Hw Hold]] | [Hw ->]]; rewrite Hw.
    + rewrite filter_app. cbn [filter].
      rewrite (other_key_rejected q r old Hc Hk Hold). reflexivity.
    + cbn [filter]. rewrite app_nil_r. reflexivity.
Qed.

(** X5: no request deletes a document: a collection keeps its size, or
    gains one document when the key of the request had no record. *)
Theorem store_only_grows_by_insert (r : request) (w : world) (c : collection) :
  List.length (documents c (snd (route E r w))) = List.length (documents c w) \/
  (c = collection_of r /\ records_for r w = [] /\
   List.length (documents c (snd (route E r w))) = S (List.length (documents c w))).
Proof.
  destruct (route_effect E r w) as [Hsame | [doc [_ [_ Hr]]]].
  - left. rewrite (same_store_documents _ _ _ Hsame). reflexivity.
  - rewrite Hr.
    destruct (collection_eq_dec c (collection_of r)) as [-> | Hc];
      [| left; rewrite refreshed_other_documents; [reflexivity | exact Hc]].
    destruct (refreshed_shape r doc w) as [pre [stored [post [Hdocs [Hpre [_ Hold]]]]]].
    rewrite Hdocs. destruct Hold as [[old [Hw _]] | [Hw ->]]; rewrite Hw.
    + left. rewrite !length_app. reflexivity.
    + right. split; [reflexivity |]. split.
      * unfold records_for. rewrite Hw. apply filter_none. exact Hpre.
      * rewrite length_app. cbn. lia.
Qed.



Lemma replace_first_kept_id (flt : Dict -> bool) (doc : Dict) (docs docs' : list Dict)
    (p : Dict -> bool) (old : Dict) (oid : value) :
  replace_first flt doc docs = Some docs' ->
  (forall d, flt d = true -> p d = true -> p (keep_id d doc) = true) ->
  (forall d, flt d = true -> p d = false -> p (keep_id d doc) = false) ->
  find p docs = Some old -> dict_lookup old "_id" = Some oid ->
  exists stored, find p docs' = Some stored /\ dict_lookup stored "_id" = Some oid.
Proof.
  revert docs'. induction docs as [|d docs IH]; intros docs' Hrep Hyes Hno Hfind Hid.
  - discriminate.
  - cbn [replace_first] in Hrep. cbn [find] in Hfind.
    destruct (flt d) eqn:Hd.
    + inversion Hrep; subst. cbn [find]. destruct (p d) eqn:Hp.
      * inversion Hfind; subst. rewrite (Hyes old Hd Hp).
        exists (keep_id old doc). split; [reflexivity |].
        unfold keep_id. rewrite Hid. cbn [dict_lookup]. reflexivity.
      * rewrite (Hno d Hd Hp). exists old. split; assumption.
    + destruct (replace_first flt doc docs) as [rest|]; [| discriminate].
      inversion Hrep; subst. cbn [find]. destruct (p d).
      * exists old. split; assumption.
      * apply (IH rest eq_refl); assumption.
Qed.

Lemma find_app_found {A} (p : A -> bool) (l l' : list A) (x : A) :
  find p l = Some x -> find p (l ++ l') = Some x.
Proof.
  induction l as [|y l IH]; cbn [find app]; [discriminate |].
  destruct (p y); [trivial | exact IH].
Qed.

(** One request leaves the record of a key under the [_id] it had. *)
Lemma route_keeps_id (q r : request) (w : world) (old : Dict) (oid : value) :
  stored_record q w = Some old -> dict_lookup old "_id" = Some oid ->
  exists stored,
    stored_record q (snd (route E r w)) = Some stored /\
    dict_lookup stored "_id" = Some oid.
Proof.
  intros Hq Hid. unfold stored_record in *.
  destruct (route_effect E r w) as [Hsame | [doc [_ [Hsucc Hr]]]].
  - rewrite (same_store_documents _ _ _ Hsame). exists old. split; assumption.
  - rewrite Hr.
    destruct (collection_eq_dec (collection_of q) (collection_of r)) as [Hc | Hc];
      [| rewrite refreshed_other_documents; [exists old; split; assumption | exact Hc]].
    destruct (record_of_shape _ _ _ _ _ (proj2 Hsucc)) as [Hrec _].
    assert (Hkeep : forall d, is_record_of q (keep_id d doc) = is_record_of q doc).
    { intros d. apply stored_as_record, keep_id_stored_as. }
    rewrite Hc in *. rewrite refreshed_documents.
    destruct (replace_first (is_record_of r) doc (documents (collection_of r) w))
      as [docs'|] eqn:Hrep.
    + apply (replace_first_kept_id _ _ _ _ (is_record_of q) old oid Hrep); try assumption.
      * intros d Hr' Hq'. rewrite Hkeep.
        assert (Hk : key_of q = key_of r).
        { unfold is_record_of in Hr', Hq'. rewrite Hc in Hq'. eapply field_is_inj; eassumption. }
        unfold is_record_of in *. rewrite Hc, Hk. exact Hrec.
      * intros d Hr' Hq'. rewrite Hkeep.
        destruct (String.eqb_spec (key_of q) (key_of r)) as [Hk | Hk].
        -- unfold is_record_of in Hr', Hq'. rewrite Hc, Hk in Hq'. congruence.
        -- apply (other_key_rejected q r); assumption.
    + exists old. split; [apply find_app_found; exact Hq | exact Hid].
Qed.

(** X8: over any sequence of requests the record of a key stays under
    the [_id] it was first stored with: a refresh replaces the fields
    and keeps the identity. *)
Theorem record_keeps_its_id (rs : list request) (q : request) (w : world)
    (old : Dict) (oid : value) :
  stored_record q w = Some old -> dict_lookup old "_id" = Some oid ->
  exists stored,
    stored_record q (serve E rs w) = Some stored /\
    dict_lookup stored "_id" = Some oid.
Proof.
  revert w old. induction rs as [|r rs IH]; intros w old Hq Hid; cbn [serve].
  - exists old. split; assumption.
  - destruct (route_keeps_id q r w old oid Hq Hid) as [mid [Hmid Hid']].
    exact (IH _ _ Hmid Hid').
Qed.

Lemma traverse_length {A B} (f : A -> option B) (l : list A) (l' : list B) :
  traverse f l = Some l' -> List.length l' = List.length l.
Proof.
  revert l'. induction l as [|x l IH]; cbn [traverse]; intros l' H.
  - inversion H. reflexivity.
  - destruct (f x); [| discriminate]. destruct (traverse f l) as [ys|]; [| discriminate].
    inversion H. cbn. rewrite (IH ys eq_refl). reflexivity.
Qed.

Lemma py_slice_to_length (n : nat) (v : value) (l : list value) :
  py_slice_to n v = Ok (VList l) -> (List.length l <= n)%nat.
Proof.
  destruct v; cbn [py_slice_to]; intros H; try discriminate.
  injection H as <-. apply firstn_le_length.
Qed.

(** X9: the weather record keeps at most seven days of forecast,
    provided the list validator accepts lists only and keeps their
    length. *)
Theorem forecast_keeps_seven_days (city : string) (body : value) (t : Z) (doc : Dict) :
  (forall v l', validate_List E v = Some l' ->
                exists l, v = VList l /\ List.length l' = List.length l) ->
  weather_record E city body t = Ok doc ->
  exists days,
    dict_lookup doc "forecast" = Some (VList days) /\ (List.length days <= 7)%nat.
Proof.
  intros Hval H. unfold weather_record in H.
  destruct (py_get body "currentConditions" _) as [current|]; cbn [rbind] in H;
    [| discriminate].
  destruct (py_get body "days" _) as [days|]; cbn [rbind] in H; [| discriminate].
  destruct (py_slice_to 7 days) as [forecast|] eqn:Hslice; cbn [rbind] in H; [| discriminate].
  unfold WeatherData_fields in H.
  destruct (validate_Dict E current); [| discriminate].
  destruct (validate_List E forecast) as [l'|] eqn:Hl; [| discriminate].
  destruct (traverse (validate_Dict E) l') as [fc|] eqn:Htr; [| discriminate].
  inversion H; subst. eexists. split; [reflexivity |].
  rewrite length_map.
  apply (Nat.le_trans _ (List.length l'));
    [apply Nat.eq_le_incl; exact (traverse_length _ _ _ Htr) |].
  destruct (Hval _ _ Hl) as [l [-> Hlen]]. rewrite Hlen.
  exact (py_slice_to_length _ _ _ Hslice).
Qed.

End CacheStore.

Lemma other_keys_untouched_witness :
  records_for (GET_soil "poly123") (snd (route fair_weather (GET_weather "Mumbai") later_world))
  = records_for (GET_soil "poly123") later_world.
Proof.
  apply (other_keys_untouched fair_weather (GET_soil "poly123") (GET_weather "Mumbai")).
  left. discriminate.
Defined.


Lemma record_keeps_its_id_witness :
  exists stored,
    stored_record (GET_weather "Mumbai")
      (serve fair_weather [GET_weather "Mumbai"; GET_weather "Delhi"; GET_weather "Mumbai"]
         later_world)
    = Some stored /\
    dict_lookup stored "_id" = Some (VObjectId 0).
Proof.
  apply (record_keeps_its_id fair_weather
           [GET_weather "Mumbai"; GET_weather "Delhi"; GET_weather "Mumbai"]
           (GET_weather "Mumbai") later_world mumbai_record (VObjectId 0)); reflexivity.
Defined.

Lemma forecast_keeps_seven_days_witness :
  exists days,
    dict_lookup (delhi_payload "Delhi" 0) "forecast" = Some (VList days) /\
    (List.length days <= 7)%nat.
Proof.
  apply (forecast_keeps_seven_days fair_weather "Delhi" delhi_body 0).
  - intros v l' H. destruct v; try discriminate. inversion H; subst.
    exists l'. split; reflexivity.
  - reflexivity.
Defined.

(** ** The other routes *)

Lemma from_first_brace_found (pre rest : string) :
  has_char "{" pre = false ->
  from_first_brace (pre ++ String "{" rest)%string = Some (String "{" rest).
Proof.
  induction pre as [|c pre IH]; cbn [append from_first_brace has_char]; intros H.
  - reflexivity.
  - apply orb_false_iff in H. destruct H as [Hc Hpre]. rewrite Hc. exact (IH Hpre).
Qed.

Lemma from_first_brace_none (s : string) :
  has_char "{" s = false -> from_first_brace s = None.
Proof.
  induction s as [|c s IH]; cbn [from_first_brace has_char]; intros H.
  - reflexivity.
  - apply orb_false_iff in H. destruct H as [Hc Hs]. rewrite Hc. exact (IH Hs).
Qed.

Lemma to_last_brace_none (s : string) :
  has_char "}" s = false -> to_last_brace s = None.
Proof.
  induction s as [|c s IH]; cbn [to_last_brace has_char]; intros H.
  - reflexivity.
  - apply orb_false_iff in H. destruct H as [Hc Hs]. rewrite (IH Hs), Hc. reflexivity.
Qed.

Lemma to_last_brace_found (s post : string) :
  has_char "}" post = false ->
  to_last_brace (s ++ String "}" post)%string = Some (s ++ "}")%string.
Proof.
  intros Hpost. induction s as [|c s IH]; cbn [append to_last_brace].
  - rewrite (to_last_brace_none _ Hpost). reflexivity.
  - rewrite IH. reflexivity.
Qed.

(** X18: the braces of the model's answer: from a text with no opening
    brace before [{body}] and no closing brace after it, the handler
    reads exactly [{body}], inner braces included; from a text with no
    opening brace it reads nothing. *)
Theorem brace_span_extracts (pre body post : string) :
  has_char "{" pre = false ->
  has_char "}" post = false ->
  brace_span (pre ++ "{" ++ body ++ "}" ++ post)%string = Some ("{" ++ body ++ "}")%string /\
  brace_span pre = None.
Proof.
  intros Hpre Hpost. unfold brace_span. split.
  - change ("{" ++ body ++ "}" ++ post)%string with (String "{" (body ++ String "}" post)%string).
    rewrite (from_first_brace_found _ _ Hpre).
    change (String "{" (body ++ String "}" post)%string)
      with ((String "{" body) ++ String "}" post)%string.
    rewrite (to_last_brace_found _ _ Hpost). reflexivity.
  - rewrite (from_first_brace_none _ Hpre). reflexivity.
Qed.

Section OtherRoutes.

Variable sv : services.

Ltac run_route :=
  cbv [get_crop_recommendations get_market_prices create_polygon agricultural_chat
       detect_disease app_try app_bind app_ret app_raise app_lift in_cache new_oid call
       with_cache insert_recommendation insert_polygon insert_chat insert_detection
       with_new_id create_agro_polygon get_gemini_response
       fetch_weather_data fetch_soil_data send utcnow bind ret];
  cbn [cache polygons recommendations market_prices disease_detections chat_history calls
       weather soil next_oid clock_reads requests_sent fst snd].

(** X10: the recommendation route goes past the cache: whatever is
    stored, it asks the weather provider, and the soil provider when a
    non-empty polygon id is given, and it leaves the weather and soil
    collections as they are. *)
Theorem recommendations_bypass_cache (city : string) (polygon_id : option string)
    (db : database) :
  requests_sent (cache (snd (get_crop_recommendations sv city polygon_id db)))
  = recommendation_requests city polygon_id ++ requests_sent (cache db) /\
  weather (cache (snd (get_crop_recommendations sv city polygon_id db)))
  = weather (cache db) /\
  soil (cache (snd (get_crop_recommendations sv city polygon_id db)))
  = soil (cache db).
Proof.
  unfold recommendation_requests. run_route.
  destruct polygon_id as [p|]; [destruct (truthy (VStr p)) |]; run_route;
    match goal with
    | |- context [recommendations_from ?a ?b ?c] =>
        destruct (recommendations_from a b c)
    end; cbn; repeat split.
Qed.

(** X11: with the weather provider down (and the soil provider too,
    when it is asked) the route still answers with recommendations:
    those of a provider reporting 25 degrees and moisture 0.2; the
    failure is not reported, and the made-up result is stored. *)
Theorem provider_failure_is_masked (city : string) (polygon_id : option string)
    (db : database) :
  visual_crossing (surroundings sv) (List.length (requests_sent (cache db))) city = None ->
  (forall p, polygon_id = Some p ->
             agromonitoring (surroundings sv) (S (List.length (requests_sent (cache db)))) p
             = None) ->
  exists recs doc,
    generate_crop_recommendations reported_25 reported_02 city = Ok recs /\
    fst (get_crop_recommendations sv city polygon_id db) = Ok recs /\
    recommendations (snd (get_crop_recommendations sv city polygon_id db))
    = recommendations db ++ [doc] /\
    RecommendationDoc.recommendations doc = recs.
Proof.
  intros Hw Hs.
  assert (Hdefault : forall location,
             recommendations_from (VDict []) (VDict []) location
             = generate_crop_recommendations reported_25 reported_02 location)
    by reflexivity.
  destruct (generate_crop_recommendations reported_25 reported_02 city) as [recs|] eqn:Hrecs;
    [| discriminate].
  exists recs. run_route. rewrite Hw.
  destruct polygon_id as [p|]; [destruct (truthy (VStr p)) |]; run_route;
    cbn [List.length]; try rewrite (Hs p eq_refl); cbv beta iota;
    rewrite Hdefault, Hrecs; cbn;
    eexists; repeat split.
Qed.

(** X12: every call that succeeds appends exactly one document, holding
    the returned recommendations, to [db.recommendations]; a call that
    fails answers 500 and appends nothing.  Nothing is ever replaced. *)
Theorem recommendations_are_appended (city : string) (polygon_id : option string)
    (db : database) :
  (exists recs doc,
      fst (get_crop_recommendations sv city polygon_id db) = Ok recs /\
      recommendations (snd (get_crop_recommendations sv city polygon_id db))
      = recommendations db ++ [doc] /\
      RecommendationDoc.recommendations doc = recs /\
      RecommendationDoc.city doc = city /\
      RecommendationDoc.polygon_id doc = polygon_id) \/
  (fst (get_crop_recommendations sv city polygon_id db)
   = Raise (HTTPException 500 "Failed to generate recommendations") /\
   recommendations (snd (get_crop_recommendations sv city polygon_id db))
   = recommendations db).
Proof.
  run_route.
  destruct polygon_id as [p|]; [destruct (truthy (VStr p)) |]; run_route;
    match goal with
    | |- context [recommendations_from ?a ?b ?c] =>
        destruct (recommendations_from a b c) as [recs|]
    end; cbn;
    first [ right; split; reflexivity
          | left; eexists; eexists; repeat split ].
Qed.

Ltac run_market :=
  cbv [get_market_prices generate_mock_market_prices delete_market_prices
       insert_market_prices app_map mock_crops MarketPrice
       app_try app_bind app_ret app_raise in_cache new_oid with_cache with_new_id utcnow
       cache polygons recommendations market_prices disease_detections chat_history calls
       weather soil next_oid clock_reads requests_sent fst snd app].


(** X14: the two price tables agree: every crop of the recommendation
    table has a market price of the same name and the same price per
    kg. *)
Theorem market_prices_match_crop_table (db : database) :
  exists prices,
    fst (get_market_prices sv db) = Ok prices /\
    Forall (fun crop =>
              exists price,
                In price prices /\
                dict_lookup price "crop_name" = Some (VStr (Crop.name crop)) /\
                dict_lookup price "price_per_kg"
                = Some (VFloat (int_to_float (Crop.price_per_kg crop))))
           crops_db.
Proof.
  destruct db as [[wt sl oid reads sent] pg rc mp dd ch cl].
  run_market. eexists. split; [reflexivity |].
  unfold crops_db.
  repeat (constructor;
          [eexists;
           first [ split; [left; reflexivity | split; reflexivity]
                 | split; [right; left; reflexivity | split; reflexivity]
                 | split; [right; right; left; reflexivity | split; reflexivity]
                 | split; [right; right; right; left; reflexivity | split; reflexivity]
                 | split; [right; right; right; right; left; reflexivity
                          | split; reflexivity] ] |]).
  constructor.
Qed.

Ltac split_db db :=
  destruct db as [[?wt ?sl ?oid ?reads ?sent] ?pg ?rc ?mp ?dd ?ch ?cl].

Ltac run_all :=
  cbv [create_polygon agricultural_chat detect_disease
       app_try app_bind app_ret app_raise app_lift in_cache new_oid call
       with_cache insert_polygon insert_chat insert_detection
       with_new_id create_agro_polygon get_gemini_response utcnow
       cache polygons recommendations market_prices disease_detections chat_history calls
       weather soil next_oid clock_reads requests_sent fst snd].


(** X16: when the polygon API fails, the client is told 500 (the 400
    raised for it is caught by the handler's own [except]), and no
    polygon is stored. *)
Theorem polygon_api_failure_is_500 (polygon_data : PolygonCreate.t) (db : database) :
  agro_polygons sv (List.length (calls db)) (PolygonCreate.name polygon_data)
    (PolygonCreate.coordinates polygon_data) = None ->
  fst (create_polygon sv polygon_data db)
  = Raise (HTTPException 500 "Failed to create polygon") /\
  polygons (snd (create_polygon sv polygon_data db)) = polygons db /\
  cache (snd (create_polygon sv polygon_data db)) = cache db.
Proof.
  split_db db. run_all. intros H. rewrite H. repeat split.
Qed.

(** X17: the chat route always answers: with the model's text, or with
    the fixed apology when the model call fails, and with the four
    fixed suggestions; the exchange, apology included, is appended to
    [db.chat_history]. *)
Theorem chat_always_answers (chat_data : ChatMessage.t) (db : database) :
  exists response stored,
    response = match generate_content sv (List.length (calls db))
                       (chat_prompt chat_data) None with
               | Some text => text
               | None => apology
               end /\
    fst (agricultural_chat sv chat_data db)
    = Ok [("response", VStr response); ("suggestions", VList (map VStr suggestions))] /\
    chat_history (snd (agricultural_chat sv chat_data db)) = chat_history db ++ [stored] /\
    dict_lookup stored "message" = Some (VStr (ChatMessage.message chat_data)) /\
    dict_lookup stored "response" = Some (VStr response).
Proof.
  split_db db. run_all. eexists. eexists.
  split; [reflexivity |]. split; [reflexivity |]. split; [reflexivity |].
  split; reflexivity.
Qed.




(** X21: an image that does not decode ends the request at once: the
    answer is 500, the model is not called and nothing is stored. *)
Theorem undecodable_image_is_500 (detection_data : DiseaseDetection.t) (db : database) :
  b64decode sv (DiseaseDetection.image_base64 detection_data) = None ->
  detect_disease sv detection_data db
  = (Raise (HTTPException 500 "Failed to analyze image"), db).
Proof.
  intros Hb. split_db db. run_all. rewrite Hb. reflexivity.
Qed.

End OtherRoutes.

Lemma provider_failure_is_masked_witness :
  exists recs doc,
    generate_crop_recommendations reported_25 reported_02 "Delhi" = Ok recs /\
    fst (get_crop_recommendations (services_down providers_down) "Delhi" (Some "poly123")
           (database_of stocked_world)) = Ok recs /\
    recommendations
      (snd (get_crop_recommendations (services_down providers_down) "Delhi" (Some "poly123")
              (database_of stocked_world)))
    = recommendations (database_of stocked_world) ++ [doc] /\
    RecommendationDoc.recommendations doc = recs.
Proof.
  apply (provider_failure_is_masked (services_down providers_down) "Delhi" (Some "poly123")
           (database_of stocked_world)).
  - reflexivity.
  - intros p _. reflexivity.
Defined.

Lemma polygon_api_failure_is_500_witness :
  fst (create_polygon (services_down fair_weather) field_polygon (database_of empty_world))
  = Raise (HTTPException 500 "Failed to create polygon") /\
  polygons (snd (create_polygon (services_down fair_weather) field_polygon
                   (database_of empty_world)))
  = polygons (database_of empty_world) /\
  cache (snd (create_polygon (services_down fair_weather) field_polygon
                (database_of empty_world)))
  = cache (database_of empty_world).
Proof.
  apply (polygon_api_failure_is_500 (services_down fair_weather) field_polygon
           (database_of empty_world)).
  reflexivity.
Defined.

Lemma brace_span_extracts_witness :
  brace_span ("Here it is: " ++ "{" ++ "{a} and {b}" ++ "}" ++ " as asked.")%string
  = Some ("{" ++ "{a} and {b}" ++ "}")%string /\
  brace_span "Here it is: " = None.
Proof.
  apply (brace_span_extracts "Here it is: " "{a} and {b}" " as asked."); reflexivity.
Defined.



Lemma undecodable_image_is_500_witness :
  detect_disease (no_decoder (services_up fair_weather)) leaf_photo (database_of empty_world)
  = (Raise (HTTPException 500 "Failed to analyze image"), database_of empty_world).
Proof.
  apply (undecodable_image_is_500 (no_decoder (services_up fair_weather)) leaf_photo
           (database_of empty_world)).
  reflexivity.
Defined.
